(** * Spreadsheet sync clients and the upload routes

    A shallow embedding of

    - [client/services/googleSheets.ts] (the direct-mode client, module
      [Direct]),
    - its sibling that talks to the local [/api/sync] backend (the
      proxy-mode client, module [Proxy]),
    - [server/routes/upload.ts] together with the route table of
      [createServer] (module [Upload]),

    and the properties of their natural-language specification.

    Conventions.  JavaScript strings are [string]; the integers the
    code itself handles (HTTP statuses, file sizes, time values) are
    [Z]; a number inside a JSON value is kept as its text; a
    computation that may log, perform a request and throw is a
    function of the world ([M]); a promise that nobody awaits is a
    suspended computation ([Promise]).  What [multer], [busboy] and
    Express do on behalf of [upload.ts] is modelled from their
    sources: they are not part of the repository. *)

From Stdlib Require Import ZArith Bool List Ascii String Lia.
From stdpp Require Import gmap strings.
Import ListNotations.

Set Warnings "-register-all".
Local Open Scope string_scope.
Local Open Scope Z_scope.

(** ** JavaScript values *)

(** Values as [JSON.parse] and property reads produce them.  A number
    is kept as the text [String] gives it ("5", "1.5", "1e+21"): the
    code under study prints numbers and tests them, nothing more; the
    two zeros read "0" and [NaN] reads "NaN". *)
Inductive Value : Type :=
| VUndefined
| VNull
| VBool (b : bool)
| VNum (text : string)
| VStr (s : string)
| VArr (elems : list Value)
| VObj (props : list (string * Value)).

(** Errors by constructor name, with their message. *)
Inductive JsError : Type :=
| Error (message : string)
| TypeError (message : string)
| RangeError (message : string)
| MulterError (code : string).

(** The outcome of running a piece of code: a value, or a [throw]
    (for an async function: a fulfilled or a rejected promise). *)
Inductive Completion (A : Type) : Type :=
| Returned (a : A)
| Raised (e : JsError).
Arguments Returned {A} a.
Arguments Raised {A} e.

(** [ToBoolean], the conversion behind [if], [!], [&&] and [||]. *)
Class ToBoolean (A : Type) := truthy : A -> bool.

#[export] Instance bool_truthy : ToBoolean bool := fun b => b.

#[export] Instance string_truthy : ToBoolean string :=
  fun s => negb (String.eqb s "").

#[export] Instance value_truthy : ToBoolean Value := fun v =>
  match v with
  | VUndefined | VNull => false
  | VBool b => b
  | VNum text => negb (String.eqb text "0" || String.eqb text "NaN")
  | VStr s => truthy s
  | VArr _ | VObj _ => true
  end.

(** [o.key] on a parsed object: the last duplicate wins, a missing
    key reads [undefined]. *)
Fixpoint lookupProp (key : string) (props : list (string * Value)) : Value :=
  match props with
  | [] => VUndefined
  | (k, v) :: rest =>
      match lookupProp key rest with
      | VUndefined => if String.eqb k key then v else VUndefined
      | later => later
      end
  end.

(** [v.key]: throws on [undefined] and [null]; primitives and arrays
    have no such own key. *)
Definition getProp (v : Value) (key : string) : Completion Value :=
  match v with
  | VUndefined | VNull =>
      Raised (TypeError ("Cannot read properties of undefined (reading '" +:+ key +:+ "')"))
  | VObj props => Returned (lookupProp key props)
  | _ => Returned VUndefined
  end.

(** [v?.key]. *)
Definition getPropOpt (v : Value) (key : string) : Value :=
  match getProp v key with
  | Returned x => x
  | Raised _ => VUndefined
  end.

(** Decimal digits of a natural number, most significant first. *)
Definition digitChar (d : Z) : ascii := ascii_of_nat (48 + Z.to_nat d).

Fixpoint padDigits (width : nat) (n : Z) : string :=
  match width with
  | O => ""
  | S w => padDigits w (n / 10) +:+ String (digitChar (n mod 10)) ""
  end.

Fixpoint digitsFuel (fuel : nat) (n : Z) : string :=
  match fuel with
  | O => ""
  | S f => if n <? 10 then String (digitChar n) ""
           else digitsFuel f (n / 10) +:+ String (digitChar (n mod 10)) ""
  end.

Definition showZ (n : Z) : string :=
  if n <? 0 then "-" +:+ digitsFuel (S (Z.to_nat (Z.log2 (- n)))) (- n)
  else digitsFuel (S (Z.to_nat (Z.log2 n))) n.

(** [String(v)], as template literals and [new Error(v)] apply it.
    An array is joined with commas, [undefined] and [null] elements
    reading empty.  An object reads "[object Object]", unless it has
    a [toString] property of its own: a value out of JSON is never a
    function, [valueOf] gives no primitive either, and the conversion
    throws. *)
Fixpoint toStr (v : Value) : Completion string :=
  match v with
  | VUndefined => Returned "undefined"
  | VNull => Returned "null"
  | VBool true => Returned "true"
  | VBool false => Returned "false"
  | VNum text => Returned text
  | VStr s => Returned s
  | VArr elems =>
      (fix joinElems (l : list Value) : Completion string :=
         match l with
         | [] => Returned ""
         | x :: rest =>
             match (match x with
                    | VUndefined | VNull => Returned ""
                    | _ => toStr x
                    end) with
             | Raised e => Raised e
             | Returned first =>
                 match rest with
                 | [] => Returned first
                 | _ :: _ =>
                     match joinElems rest with
                     | Raised e => Raised e
                     | Returned others => Returned (first +:+ "," +:+ others)
                     end
                 end
             end
         end) elems
  | VObj props =>
      if existsb (fun entry => String.eqb (fst entry) "toString") props then
        Raised (TypeError "Cannot convert object to primitive value")
      else Returned "[object Object]"
  end.

(** [s.startsWith(prefix)]. *)
Definition startsWith (s pre : string) : bool := String.prefix pre s.

(** ** The world: console and network *)

Inductive Level : Type := LLog | LWarn | LError.

Record LogEntry : Type := {
  level : Level;
  text : string;
  attached : option JsError
}.

Record HttpRequest : Type := {
  reqUrl : string;
  reqMethod : string;
  reqHeaders : list (string * string);
  reqBody : option Value      (* the value handed to [JSON.stringify] *)
}.

Record HttpResponse : Type := {
  status : Z;
  payload : option Value      (* [None]: [response.json()] rejects *)
}.

(** [response.ok] of the Fetch standard: the status is in 200..299. *)
Definition ok (r : HttpResponse) : bool :=
  (200 <=? status r) && (status r <=? 299).

Inductive FetchOutcome : Type :=
| FetchThrows (e : JsError)
| FetchResponse (r : HttpResponse).

(** The remote side: every request gets some outcome. *)
Definition Fetch : Type := HttpRequest -> FetchOutcome.

(** What a path names on disk.  Absolute paths are kept as their
    list of components: [/srv/app/uploads] is [["srv"; "app"; "uploads"]]. *)
Inductive Node : Type := File | Dir.

Inductive FsCall : Type :=
| ExistsSync (path : list string)
| UnlinkSync (path : list string).

Record World : Type := {
  console : list LogEntry;     (* oldest first *)
  network : list HttpRequest;  (* oldest first *)
  disk : gmap (list string) Node;
  fsCalls : list FsCall        (* [existsSync] and [unlinkSync] calls, oldest first *)
}.

Definition emptyWorld : World :=
  {| console := []; network := []; disk := ∅; fsCalls := [] |}.

(** The world after one more console line. *)
Definition logged (w : World) (lv : Level) (msg : string) (e : option JsError) : World :=
  {| console := console w ++ [{| level := lv; text := msg; attached := e |}];
     network := network w; disk := disk w; fsCalls := fsCalls w |}.

(** The world after one more request. *)
Definition requested (w : World) (rq : HttpRequest) : World :=
  {| console := console w; network := network w ++ [rq];
     disk := disk w; fsCalls := fsCalls w |}.

(** ** Effectful code *)

Definition M (A : Type) : Type := World -> Completion A * World.

Definition ret {A} (a : A) : M A := fun w => (Returned a, w).

Definition throw {A} (e : JsError) : M A := fun w => (Raised e, w).

Definition bind {A B} (m : M A) (k : A -> M B) : M B := fun w =>
  match m w with
  | (Returned a, w') => k a w'
  | (Raised e, w') => (Raised e, w')
  end.

(** [try { body } catch (error) { handler }]. *)
Definition tryCatch {A} (body : M A) (handler : JsError -> M A) : M A := fun w =>
  match body w with
  | (Returned a, w') => (Returned a, w')
  | (Raised e, w') => handler e w'
  end.

Definition lift {A} (c : Completion A) : M A := fun w => (c, w).

Notation "x <- m ;; k" := (bind m (fun x => k))
  (at level 100, m at next level, right associativity).
Notation "m ;;; k" := (bind m (fun _ => k))
  (at level 100, right associativity).

Definition emit (lv : Level) (msg : string) (e : option JsError) : M unit := fun w =>
  (Returned tt,
   {| console := console w ++ [{| level := lv; text := msg; attached := e |}];
      network := network w; disk := disk w; fsCalls := fsCalls w |}).

Definition console_log (msg : string) : M unit := emit LLog msg None.
Definition console_warn (msg : string) : M unit := emit LWarn msg None.
Definition console_error (msg : string) (e : JsError) : M unit := emit LError msg (Some e).

(** [fetch(url, init)] sends the request at once; the outcome arrives
    when the returned promise is awaited, and a failed fetch rejects. *)
Definition sendRequest (rq : HttpRequest) : M unit := fun w =>
  (Returned tt,
   {| console := console w; network := network w ++ [rq];
      disk := disk w; fsCalls := fsCalls w |}).

Definition receive (fetch : Fetch) (rq : HttpRequest) : M HttpResponse :=
  match fetch rq with
  | FetchThrows e => throw e
  | FetchResponse r => ret r
  end.

(** [await fetch(url, init)]. *)
Definition doFetch (fetch : Fetch) (rq : HttpRequest) : M HttpResponse :=
  sendRequest rq ;;; receive fetch rq.

(** [await response.json()]. *)
Definition responseJson (r : HttpResponse) : M Value :=
  match payload r with
  | Some v => ret v
  | None => throw (Error "Unexpected token in JSON")
  end.

(** A promise nobody has awaited yet: what is left of the async
    function after its synchronous start.  Objects are truthy. *)
Record Promise (A : Type) : Type := { resume : M A }.
Arguments resume {A} p.

#[export] Instance promise_truthy {A} : ToBoolean (Promise A) := fun _ => true.

Definition await {A} (p : Promise A) : M A := resume p.

(** [p.catch(handler)]: a new promise, which runs [handler] when [p]
    rejects and so never rejects itself unless [handler] throws. *)
Definition promiseCatch {A} (p : Promise A) (handler : JsError -> M unit) : Promise unit :=
  {| resume := tryCatch (resume p ;;; ret tt) handler |}.

(** The world once a promise left running has settled. *)
Definition settle {A} (p : Promise A) (w : World) : World := snd (resume p w).

(** ** [Date]: the constructor on strings and [toISOString] *)

(** What the standard leaves to the host: how [Date.parse] reads a
    string outside the fragment of the Date Time String Format that
    [isoInstant] covers (milliseconds since the epoch, [None] for
    [NaN]). *)
Class Host : Type := { hostParse : string -> option Z }.

Module JsDate.

Definition msPerDay : Z := 86400000.

Definition isLeap (y : Z) : bool :=
  (y mod 4 =? 0) && (negb (y mod 100 =? 0) || (y mod 400 =? 0)).

Definition daysInMonth (y m : Z) : Z :=
  if m =? 2 then (if isLeap y then 29 else 28)
  else if (m =? 4) || (m =? 6) || (m =? 9) || (m =? 11) then 30
  else 31.

(** Day number (days since 1970-01-01) of a proleptic Gregorian date. *)
Definition daysFromCivil (y m d : Z) : Z :=
  let y' := if m <=? 2 then y - 1 else y in
  let era := y' / 400 in
  let yoe := y' - era * 400 in
  let mp := if m <=? 2 then m + 9 else m - 3 in
  let doy := (153 * mp + 2) / 5 + d - 1 in
  let doe := yoe * 365 + yoe / 4 - yoe / 100 + doy in
  era * 146097 + doe - 719468.

(** Year, month and day of a day number. *)
Definition civilFromDays (z : Z) : Z * Z * Z :=
  let z' := z + 719468 in
  let era := z' / 146097 in
  let doe := z' - era * 146097 in
  let yoe := (doe - doe / 1460 + doe / 36524 - doe / 146096) / 365 in
  let doy := doe - (365 * yoe + yoe / 4 - yoe / 100) in
  let mp := (5 * doy + 2) / 153 in
  let d := doy - (153 * mp + 2) / 5 + 1 in
  let m := if mp <? 10 then mp + 3 else mp - 9 in
  let y := yoe + era * 400 in
  (if m <=? 2 then y + 1 else y, m, d).

Definition digitVal (c : ascii) : option Z :=
  let n := Z.of_nat (nat_of_ascii c) in
  if (48 <=? n) && (n <=? 57) then Some (n - 48) else None.

Fixpoint number (s : string) (acc : Z) : option Z :=
  match s with
  | EmptyString => Some acc
  | String c rest =>
      match digitVal c with
      | Some d => number rest (acc * 10 + d)
      | None => None
      end
  end.

(** The [len] decimal digits of [s] from position [start]. *)
Definition field (s : string) (start len : nat) : option Z :=
  let f := String.substring start len s in
  if Nat.eqb (String.length f) len then number f 0 else None.

Definition charAt (s : string) (i : nat) (c : string) : bool :=
  match String.get i s with
  | Some x => String.eqb (String x "") c
  | None => false
  end.

(** The instant named by [YYYY-MM-DDTHH:mm:ssZ] or
    [YYYY-MM-DDTHH:mm:ss.sssZ] with legal element values; every
    engine agrees on these.  [None] for any other string. *)
Definition isoInstant (s : string) : option Z :=
  let n := String.length s in
  let shape :=
    charAt s 4 "-" && charAt s 7 "-" && charAt s 10 "T" &&
    charAt s 13 ":" && charAt s 16 ":" &&
    ((Nat.eqb n 20 && charAt s 19 "Z") ||
     (Nat.eqb n 24 && charAt s 19 "." && charAt s 23 "Z")) in
  if shape then
    match field s 0 4, field s 5 2, field s 8 2,
          field s 11 2, field s 14 2, field s 17 2,
          (if Nat.eqb n 24 then field s 20 3 else Some 0) with
    | Some y, Some mo, Some d, Some h, Some mi, Some sec, Some ms =>
        if (1 <=? mo) && (mo <=? 12) && (1 <=? d) && (d <=? daysInMonth y mo)
           && (h <=? 23) && (mi <=? 59) && (sec <=? 59)
        then Some (daysFromCivil y mo d * msPerDay
                   + h * 3600000 + mi * 60000 + sec * 1000 + ms)
        else None
    | _, _, _, _, _, _, _ => None
    end
  else None.

(** [TimeClip]: a time value beyond 8.64e15 ms is [NaN]. *)
Definition timeClip (t : option Z) : option Z :=
  match t with
  | Some v => if Z.abs v <=? 8640000000000000 then Some v else None
  | None => None
  end.

(** [new Date(s)] for a string [s]: its time value. *)
Definition newDate `{Host} (s : string) : option Z :=
  timeClip (match isoInstant s with
            | Some t => Some t
            | None => hostParse s
            end).

Definition showYear (y : Z) : string :=
  if (0 <=? y) && (y <=? 9999) then padDigits 4 y
  else (if y <? 0 then "-" else "+") +:+ padDigits 6 (Z.abs y).

(** The text of a time value: [YYYY-MM-DDTHH:mm:ss.sssZ]. *)
Definition isoString (t : Z) : string :=
  let '(y, m, d) := civilFromDays (t / msPerDay) in
  let r := t mod msPerDay in
  showYear y +:+ "-" +:+ padDigits 2 m +:+ "-" +:+ padDigits 2 d
    +:+ "T" +:+ padDigits 2 (r / 3600000)
    +:+ ":" +:+ padDigits 2 (r / 60000 mod 60)
    +:+ ":" +:+ padDigits 2 (r / 1000 mod 60)
    +:+ "." +:+ padDigits 3 (r mod 1000) +:+ "Z".

(** [date.toISOString()]: throws on an invalid date. *)
Definition toISOString (tv : option Z) : Completion string :=
  match tv with
  | None => Raised (RangeError "Invalid time value")
  | Some t => Returned (isoString t)
  end.

End JsDate.

(** A host whose [Date.parse] knows nothing beyond the standard format. *)
Definition strictHost : Host := {| hostParse := fun _ => None |}.

(** ** Configuration and submissions *)

Record SheetNames : Type := {
  contacts : string;
  jobApplications : string;
  getStartedRequests : string;
  resumeUploads : string;
  newsletter : string
}.

(** [config]: the two environment values ([|| ""] when unset) and the
    fixed tab names. *)
Record GoogleSheetsConfig : Type := {
  spreadsheetId : string;
  apiKey : string
}.

Definition sheetNames : SheetNames := {|
  contacts := "Contacts";
  jobApplications := "Job Applications";
  getStartedRequests := "Get Started Requests";
  resumeUploads := "Resume Uploads";
  newsletter := "Newsletter Subscribers"
|}.

(** An optional field ([phone?: string]) is [None] when absent. *)
Module Contact.
Record t : Type := {
  name : string; email : string; phone : option string;
  company : option string; message : string; created_at : string
}.
End Contact.

Module JobApplication.
Record t : Type := {
  full_name : string; email : string; phone : string; position : string;
  experience : string; cover_letter : option string;
  resume_url : option string; status : string; created_at : string
}.
End JobApplication.

Module GetStartedRequest.
Record t : Type := {
  first_name : string; last_name : string; email : string;
  company : option string; phone : option string;
  job_title : option string; message : option string; created_at : string
}.
End GetStartedRequest.

Module ResumeUpload.
Record t : Type := {
  full_name : string; email : string; phone : option string;
  location : option string; position_interested : option string;
  experience_level : option string; skills : option string;
  cover_letter : option string; linkedin_url : option string;
  portfolio_url : option string; resume_url : option string;
  created_at : string
}.
End ResumeUpload.

Module NewsletterSubscription.
Record t : Type := { email : string; subscribed_at : string }.
End NewsletterSubscription.

(** [field || ""]. *)
Definition orEmpty (field : option string) : string :=
  match field with
  | Some s => if truthy s then s else ""
  | None => ""
  end.

(** ** The [values] arrays of the five sync methods

    Both client files build them with the same text; the timestamp is
    converted first and may throw. *)
Module Rows.
Section Rows.
Context `{Host}.

Definition isoOf (timestamp : string) : Completion string :=
  JsDate.toISOString (JsDate.newDate timestamp).

Definition withTimestamp (timestamp : string) (cells : list string)
  : Completion (list (list string)) :=
  match isoOf timestamp with
  | Returned ts => Returned [ts :: cells]
  | Raised e => Raised e
  end.

Definition contactValues (contactData : Contact.t) :=
  withTimestamp (Contact.created_at contactData)
    [ Contact.name contactData;
      Contact.email contactData;
      orEmpty (Contact.phone contactData);
      orEmpty (Contact.company contactData);
      Contact.message contactData ].

Definition jobApplicationValues (applicationData : JobApplication.t) :=
  withTimestamp (JobApplication.created_at applicationData)
    [ JobApplication.full_name applicationData;
      JobApplication.email applicationData;
      JobApplication.phone applicationData;
      JobApplication.position applicationData;
      JobApplication.experience applicationData;
      orEmpty (JobApplication.cover_letter applicationData);
      orEmpty (JobApplication.resume_url applicationData);
      JobApplication.status applicationData ].

Definition getStartedRequestValues (requestData : GetStartedRequest.t) :=
  withTimestamp (GetStartedRequest.created_at requestData)
    [ GetStartedRequest.first_name requestData;
      GetStartedRequest.last_name requestData;
      GetStartedRequest.email requestData;
      orEmpty (GetStartedRequest.company requestData);
      orEmpty (GetStartedRequest.phone requestData);
      orEmpty (GetStartedRequest.job_title requestData);
      orEmpty (GetStartedRequest.message requestData) ].

Definition resumeUploadValues (resumeData : ResumeUpload.t) :=
  withTimestamp (ResumeUpload.created_at resumeData)
    [ ResumeUpload.full_name resumeData;
      ResumeUpload.email resumeData;
      orEmpty (ResumeUpload.phone resumeData);
      orEmpty (ResumeUpload.location resumeData);
      orEmpty (ResumeUpload.position_interested resumeData);
      orEmpty (ResumeUpload.experience_level resumeData);
      orEmpty (ResumeUpload.skills resumeData);
      orEmpty (ResumeUpload.cover_letter resumeData);
      orEmpty (ResumeUpload.linkedin_url resumeData);
      orEmpty (ResumeUpload.portfolio_url resumeData);
      orEmpty (ResumeUpload.resume_url resumeData) ].

Definition newsletterSubscriptionValues (subscriptionData : NewsletterSubscription.t) :=
  withTimestamp (NewsletterSubscription.subscribed_at subscriptionData)
    [ NewsletterSubscription.email subscriptionData ].
End Rows.
End Rows.

(** [JSON.stringify]'s argument for an array of string rows. *)
Definition rowsValue (values : list (list string)) : Value :=
  VArr (map (fun row => VArr (map VStr row)) values).

(** ** The direct-mode client *)
Module Direct.
Section Service.
Context `{Host}.
Variable config : GoogleSheetsConfig.
Variable fetch : Fetch.

Definition baseUrl : string := "https://sheets.googleapis.com/v4/spreadsheets".

(** [!!(config.spreadsheetId && config.apiKey)] *)
Definition isConfigured : bool :=
  negb (negb (truthy (if truthy (spreadsheetId config)
                      then apiKey config
                      else spreadsheetId config))).

Definition appendRequest (sheetName : string) (values : list (list string))
  : HttpRequest :=
  let url := baseUrl +:+ "/" +:+ spreadsheetId config
             +:+ "/values/" +:+ sheetName +:+ ":append" in
  {| reqUrl := url +:+ "?valueInputOption=RAW&key=" +:+ apiKey config;
     reqMethod := "POST";
     reqHeaders := [("Content-Type", "application/json")];
     reqBody := Some (VObj [("values", rowsValue values)]) |}.

(** [errorData?.error?.message || "Unknown error"], inside the
    template literal. *)
Definition errorMessage (errorData : Value) : Completion string :=
  let m := getPropOpt (getPropOpt errorData "error") "message" in
  if truthy m then toStr m else Returned "Unknown error".

Definition appendToSheet (sheetName : string) (values : list (list string))
  : M bool :=
  if negb isConfigured then
    console_warn "Google Sheets not configured. Skipping sync." ;;;
    ret false
  else
    tryCatch
      (response <- doFetch fetch (appendRequest sheetName values) ;;
       if negb (ok response) then
         (* [response.json().catch(() => null)] *)
         errorData <- tryCatch (responseJson response) (fun _ => ret VNull) ;;
         if status response =? 401 then
           console_warn "⚠️ Google Sheets API Key cannot write data. Read-only access available." ;;;
           console_warn "💡 For write access, configure OAuth2 or service account authentication." ;;;
           ret false
         else
           detail <- lift (errorMessage errorData) ;;
           throw (Error ("Google Sheets API error: " +:+ showZ (status response)
                         +:+ " - " +:+ detail))
       else
         console_log ("✅ Successfully synced to Google Sheets: " +:+ sheetName) ;;;
         ret true)
      (fun error =>
         console_error "❌ Error syncing to Google Sheets:" error ;;;
         ret false).

Definition syncContact (contactData : Contact.t) : M bool :=
  values <- lift (Rows.contactValues contactData) ;;
  appendToSheet (contacts sheetNames) values.

Definition syncJobApplication (applicationData : JobApplication.t) : M bool :=
  values <- lift (Rows.jobApplicationValues applicationData) ;;
  appendToSheet (jobApplications sheetNames) values.

Definition syncGetStartedRequest (requestData : GetStartedRequest.t) : M bool :=
  values <- lift (Rows.getStartedRequestValues requestData) ;;
  appendToSheet (getStartedRequests sheetNames) values.

Definition syncResumeUpload (resumeData : ResumeUpload.t) : M bool :=
  values <- lift (Rows.resumeUploadValues resumeData) ;;
  appendToSheet (resumeUploads sheetNames) values.

Definition syncNewsletterSubscription (subscriptionData : NewsletterSubscription.t)
  : M bool :=
  values <- lift (Rows.newsletterSubscriptionValues subscriptionData) ;;
  appendToSheet (newsletter sheetNames) values.

Definition initializeSheets : M unit :=
  if negb isConfigured then
    console_warn "Google Sheets not configured. Skipping initialization."
  else
    console_log "Google Sheets service initialized".
End Service.
End Direct.

(** ** The proxy-mode client *)
Module Proxy.
Section Service.
Context `{Host}.
Variable fetch : Fetch.

Definition baseUrl : string := "/api/sync".

Definition statusRequest : HttpRequest :=
  {| reqUrl := baseUrl +:+ "/status"; reqMethod := "GET";
     reqHeaders := []; reqBody := None |}.

(** [isConfigured] is [async]: a call sends the status request and
    returns a promise; the rest runs when that promise is awaited
    or, if nobody awaits it, later on its own. *)
Definition isConfigured : M (Promise Value) :=
  sendRequest statusRequest ;;;
  ret {| resume :=
    tryCatch
      (response <- receive fetch statusRequest ;;
       if ok response then
         result <- responseJson response ;;
         (* [result.success && result.data.configured] *)
         success <- lift (getProp result "success") ;;
         if truthy success then
           data <- lift (getProp result "data") ;;
           lift (getProp data "configured")
         else ret success
       else ret (VBool false))
      (fun error =>
         console_error "Error checking Google Sheets configuration:" error ;;;
         ret (VBool false)) |}.

Definition syncRequest (endpoint : string) (data : Value) : HttpRequest :=
  {| reqUrl := baseUrl +:+ "/" +:+ endpoint; reqMethod := "POST";
     reqHeaders := [("Content-Type", "application/json")];
     reqBody := Some data |}.

(** Returns [result.synced] as the server sent it. *)
Definition syncToServer (endpoint : string) (data : Value) : M Value :=
  tryCatch
    (response <- doFetch fetch (syncRequest endpoint data) ;;
     if negb (ok response) then
       throw (Error ("Sync failed: " +:+ showZ (status response)))
     else
       result <- responseJson response ;;
       success <- lift (getProp result "success") ;;
       if truthy success then
         console_log ("✅ Successfully synced to Google Sheets: " +:+ endpoint) ;;;
         lift (getProp result "synced")
       else
         err <- lift (getProp result "error") ;;
         (* [new Error(result.error || 'Sync failed')] *)
         message <- lift (if truthy err then toStr err else Returned "Sync failed") ;;
         throw (Error message))
    (fun error =>
       console_error ("❌ Error syncing to Google Sheets (" +:+ endpoint +:+ "):") error ;;;
       ret (VBool false)).

(** The members of this class are [baseUrl], [isConfigured],
    [syncToServer], the five [sync...] methods and
    [initializeSheets]: [this.appendToSheet] reads [undefined]. *)
Definition this_appendToSheet
  : option (string -> list (list string) -> M bool) := None.

(** [this.name(a, b)]: calling what is not a function throws. *)
Definition callMember {A B C} (name : string) (member : option (A -> B -> M C))
           (a : A) (b : B) : M C :=
  match member with
  | Some method => method a b
  | None => throw (TypeError ("this." +:+ name +:+ " is not a function"))
  end.

Definition syncContact (contactData : Contact.t) : M bool :=
  values <- lift (Rows.contactValues contactData) ;;
  callMember "appendToSheet" this_appendToSheet (contacts sheetNames) values.

Definition syncJobApplication (applicationData : JobApplication.t) : M bool :=
  values <- lift (Rows.jobApplicationValues applicationData) ;;
  callMember "appendToSheet" this_appendToSheet (jobApplications sheetNames) values.

Definition syncGetStartedRequest (requestData : GetStartedRequest.t) : M bool :=
  values <- lift (Rows.getStartedRequestValues requestData) ;;
  callMember "appendToSheet" this_appendToSheet (getStartedRequests sheetNames) values.

Definition syncResumeUpload (resumeData : ResumeUpload.t) : M bool :=
  values <- lift (Rows.resumeUploadValues resumeData) ;;
  callMember "appendToSheet" this_appendToSheet (resumeUploads sheetNames) values.

Definition syncNewsletterSubscription (subscriptionData : NewsletterSubscription.t)
  : M bool :=
  values <- lift (Rows.newsletterSubscriptionValues subscriptionData) ;;
  callMember "appendToSheet" this_appendToSheet (newsletter sheetNames) values.

(** [if (!this.isConfigured())] tests the promise itself.  The
    result is the promise left running when the method returns. *)
Definition initializeSheets : M (Promise Value) :=
  configured <- isConfigured ;;
  (if negb (truthy configured) then
     console_warn "Google Sheets not configured. Skipping initialization."
   else
     console_log "Google Sheets service initialized") ;;;
  ret configured.
End Service.
End Proxy.

(** ** [withGoogleSheetsSync] (the same text in both client files)

    An operation of type [() => Promise<T>] is a call that may throw
    on the spot or hand back a promise.  The result comes with the
    promise that is left running in the background. *)
Definition withGoogleSheetsSync {T} (supabaseOperation : M (Promise T))
           (syncOperation : M (Promise bool)) : M (T * Promise unit) :=
  started <- supabaseOperation ;;
  result <- await started ;;
  sync <- syncOperation ;;
  let background :=
    promiseCatch sync (fun error =>
      console_error "Background Google Sheets sync failed:" error) in
  ret (result, background).

(** An [async] arrow function wrapping [body]: calling it never
    throws, failures of [body] reject the promise. *)
Definition asyncCall {A} (body : M A) : M (Promise A) :=
  ret {| resume := body |}.

(** ** [path] (POSIX) and [fs] *)
Module Path.

Definition isSlash (c : ascii) : bool := Ascii.eqb c "/"%char.

(** The pieces between slashes: ["a//b"] gives [["a"; ""; "b"]]. *)
Fixpoint splitSlash (s : string) : list string :=
  match s with
  | EmptyString => [""]
  | String c rest =>
      if isSlash c then "" :: splitSlash rest
      else match splitSlash rest with
           | piece :: pieces => String c piece :: pieces
           | [] => [String c ""]
           end
  end.

Definition components (s : string) : list string :=
  List.filter (fun piece => negb (String.eqb piece "")) (splitSlash s).

(** [path.basename(p)]: the last component, trailing slashes
    ignored; empty when there is none. *)
Definition basename (p : string) : string := List.last (components p) "".

(** The suffix of [s] from its last dot. *)
Fixpoint fromLastDot (s : string) : option string :=
  match s with
  | EmptyString => None
  | String c rest =>
      match fromLastDot rest with
      | Some e => Some e
      | None => if Ascii.eqb c "."%char then Some s else None
      end
  end.

(** [path.extname(p)]: from the last dot of the basename, unless
    that dot is its first character or the basename is [..]. *)
Definition extname (p : string) : string :=
  match basename p with
  | EmptyString => ""
  | String c rest =>
      match fromLastDot rest with
      | Some e => if String.eqb (String c rest) ".." then "" else e
      | None => ""
      end
  end.

(** One step of [normalize] on an absolute path. *)
Definition step (resolved : list string) (piece : string) : list string :=
  if String.eqb piece "" || String.eqb piece "." then resolved
  else if String.eqb piece ".." then removelast resolved
  else resolved ++ [piece].

Definition normalize (pieces : list string) : list string :=
  fold_left step pieces [].

(** [path.join(base, p)] for an absolute [base]. *)
Definition join (base : list string) (p : string) : list string :=
  normalize (base ++ splitSlash p).

Definition noSlash (s : string) : bool :=
  forallb (fun c => negb (isSlash c)) (list_ascii_of_string s).

(** A component that [normalize] neither drops nor resolves. *)
Definition plainName (s : string) : bool :=
  negb (String.eqb s "") && negb (String.eqb s ".") && negb (String.eqb s "..").

(** A file name proper: a single component that names an entry. *)
Definition properName (name : string) : bool := plainName name && noSlash name.

(** [p] lies strictly below the directory [dir]. *)
Definition strictlyInside (dir p : list string) : Prop :=
  exists rest, rest <> [] /\ Forall (fun name => properName name = true) rest
               /\ p = (dir ++ rest)%list.

End Path.

Definition onDisk (f : gmap (list string) Node -> gmap (list string) Node)
           (w : World) : World :=
  {| console := console w; network := network w;
     disk := f (disk w); fsCalls := fsCalls w |}.

Definition traceFs (call : FsCall) : M unit := fun w =>
  (Returned tt,
   {| console := console w; network := network w;
      disk := disk w; fsCalls := fsCalls w ++ [call] |}).

(** [fs.existsSync(p)]. *)
Definition existsSync (p : list string) : M bool :=
  traceFs (ExistsSync p) ;;;
  fun w => (Returned (bool_decide (is_Some (disk w !! p))), w).

(** [fs.unlinkSync(p)]: removes a file; throws on a directory and on
    a missing path. *)
Definition unlinkSync (p : list string) : M unit :=
  traceFs (UnlinkSync p) ;;;
  fun w =>
    match disk w !! p with
    | Some File => (Returned tt, onDisk (delete p) w)
    | Some Dir => (Raised (Error "EISDIR: illegal operation on a directory, unlink"), w)
    | None => (Raised (Error "ENOENT: no such file or directory, unlink"), w)
    end.

(** [fs.createWriteStream(p)] with a stream piped into it, as far as
    the one who listens to its [error] and [finish] events sees it:
    the error of the failed [open], or nothing once the stream has
    finished.  Opening creates the file or truncates the one that is
    there; it fails on a directory, and where the directory that is
    to hold the file is missing or is not a directory.  Like
    [mkdirSync], the call shows by its effect on the disk. *)
Definition createWriteStream (p : list string) : M (option JsError) := fun w =>
  match disk w !! removelast p with
  | Some Dir =>
      match disk w !! p with
      | Some Dir =>
          (Returned (Some (Error "EISDIR: illegal operation on a directory, open")), w)
      | _ => (Returned None, onDisk (insert p File) w)
      end
  | Some File => (Returned (Some (Error "ENOTDIR: not a directory, open")), w)
  | None => (Returned (Some (Error "ENOENT: no such file or directory, open")), w)
  end.

(** [fs.unlink(p, cb)]: removes a file; an error goes to [cb], and
    nothing is thrown. *)
Definition unlink (p : list string) : M unit := fun w =>
  match disk w !! p with
  | Some File => (Returned tt, onDisk (delete p) w)
  | _ => (Returned tt, w)
  end.

(** ** The upload routes *)
Module Upload.

(** A file part of a multipart request, as multer describes it. *)
Record FilePart : Type := {
  fieldname : string;
  originalname : string;
  mimetype : string;
  size : Z
}.

(** [req.file] once multer has stored the part. *)
Record MulterFile : Type := { part : FilePart; filename : string }.

(** A [POST /api/upload/image] request: the file parts of its
    multipart body in the order they arrive (none when the body is
    not multipart, or holds text fields only), and what [Date.now()]
    and [Math.round(Math.random() * 1e9)] give when the storage names
    a file, which happens once per request at most.  The body is
    well-formed and its text fields are within busboy's limits: they
    only fill [req.body], which [uploadImage] does not read. *)
Record UploadRequest : Type := {
  files : list FilePart;
  now : Z;
  random : Z
}.

Inductive Body : Type :=
| Json (v : Value)
| Html (text : string).

Record Response : Type := { statusCode : Z; body : Body }.

(** What a middleware passes on: [next()] or [next(err)]. *)
Inductive Next : Type :=
| NextOk (file : option MulterFile)
| NextErr (e : JsError).

Section Server.
(** [process.cwd()] *)
Variable cwd : list string.

(** Which busboy multer runs on (see [exceeds]): [true] for 1.x. *)
Variable limitAtEqual : bool.

Definition uploadsDir : list string := Path.join cwd "uploads".

(** [limits.fileSize] *)
Definition fileSize : Z := 5 * 1024 * 1024.

(** [storage.filename] *)
Definition storageFilename (rq : UploadRequest) (file : FilePart) : string :=
  let uniqueSuffix := showZ (now rq) +:+ "-" +:+ showZ (random rq) in
  let ext := Path.extname (originalname file) in
  "image-" +:+ uniqueSuffix +:+ ext.

(** [fileFilter]: the answer handed to [cb]. *)
Definition fileFilter (file : FilePart) : M bool :=
  if truthy (mimetype file) && startsWith (mimetype file) "image/" then
    ret true
  else
    console_warn ("❌ Rejected file upload: "
                  +:+ (if truthy (originalname file) then originalname file else "unknown")
                  +:+ " ("
                  +:+ (if truthy (mimetype file) then mimetype file else "no mimetype")
                  +:+ ")") ;;;
    ret false.

(** Whether busboy ends a file of this size with the [limit] event.
    busboy 1.x (under multer 1.4.5-lts and 2.x) does so once the size
    has reached [limits.fileSize], busboy 0.x (under multer up to
    1.4.4) only once the size is beyond it. *)
Definition exceeds (size : Z) : bool :=
  if limitAtEqual then fileSize <=? size else fileSize <? size.

(** multer's [removeUploadedFiles] with [DiskStorage._removeFile]:
    every file stored for this request is unlinked. *)
Fixpoint removeUploadedFiles (uploadedFiles : list MulterFile) : M unit :=
  match uploadedFiles with
  | [] => ret tt
  | file :: rest =>
      unlink (Path.join uploadsDir (filename file)) ;;;
      removeUploadedFiles rest
  end.

(** multer's [abortWithError]: once the pending write is over, what
    was stored is removed and the error goes to [next].  The parts
    that arrive in between find no slot left and change nothing.
    Where a failed write coincides with a further part or with the
    size limit, which of the two errors reaches [next] depends on
    their timing; the final handler answers both alike, and the one
    kept here is the error of the write. *)
Definition abortWithError (uploadedFiles : list MulterFile) (e : JsError) : M Next :=
  removeUploadedFiles uploadedFiles ;;;
  ret (NextErr e).

(** multer's handler of busboy's [file] event, part after part.
    [filesLeft] is the count [single] keeps for the field [image]
    (every other field has none), [reqFile] is [req.file].

    A part without a file name is drained.  A part under another
    field, or after the slot is used, is an unexpected file.  The slot
    is used before [fileFilter] is asked; a part the filter refuses is
    drained.  An accepted part is piped to [destination]/[filename]:
    when the write fails the request is aborted with that error; when
    the part reaches the size limit the truncated file counts as
    stored and the request is aborted with [LIMIT_FILE_SIZE];
    otherwise the file becomes [req.file]. *)
Fixpoint receiveFiles (rq : UploadRequest) (filesLeft : Z)
    (uploadedFiles : list MulterFile) (reqFile : option MulterFile)
    (parts : list FilePart) : M Next :=
  match parts with
  | [] => ret (NextOk reqFile)
  | file :: rest =>
      if negb (truthy (originalname file)) then
        receiveFiles rq filesLeft uploadedFiles reqFile rest
      else if negb (String.eqb (fieldname file) "image") || (filesLeft <=? 0) then
        abortWithError uploadedFiles (MulterError "LIMIT_UNEXPECTED_FILE")
      else
        accepted <- fileFilter file ;;
        if negb accepted then
          receiveFiles rq (filesLeft - 1) uploadedFiles reqFile rest
        else
          let name := storageFilename rq file in
          let stored := {| part := file; filename := name |} in
          failure <- createWriteStream (Path.join uploadsDir name) ;;
          match failure with
          | Some e => abortWithError uploadedFiles e
          | None =>
              if exceeds (size file) then
                abortWithError (uploadedFiles ++ [stored])
                  (MulterError "LIMIT_FILE_SIZE")
              else
                receiveFiles rq (filesLeft - 1) (uploadedFiles ++ [stored])
                  (Some stored) rest
          end
  end.

(** [upload.single("image")]: multer with the options above, one
    slot for the field [image]. *)
Definition uploadMiddleware (rq : UploadRequest) : M Next :=
  receiveFiles rq 1 [] None (files rq).

Definition jsonFailure (error : string) : Body :=
  Json (VObj [("success", VBool false); ("error", VStr error)]).

(** [uploadImage] *)
Definition uploadImage (file : option MulterFile) : M Response :=
  tryCatch
    (match file with
     | None =>
         console_warn "❌ Upload rejected: No valid image file provided" ;;;
         ret {| statusCode := 400;
                body := jsonFailure "No valid image file provided. Please upload a valid image file (PNG, JPG, GIF, etc.)" |}
     | Some file =>
         if negb (startsWith (mimetype (part file)) "image/") then
           console_warn ("❌ Upload rejected: Invalid file type "
                         +:+ mimetype (part file)) ;;;
           ret {| statusCode := 400;
                  body := jsonFailure "Only image files are allowed" |}
         else
           let imageUrl := "/api/uploads/" +:+ filename file in
           console_log ("✅ Image upload successful: "
                        +:+ originalname (part file) +:+ " -> " +:+ filename file) ;;;
           ret {| statusCode := 200;
                  body := Json (VObj [
                    ("success", VBool true);
                    ("data", VObj [
                       ("url", VStr imageUrl);
                       ("filename", VStr (originalname (part file)));
                       ("size", VNum (showZ (size (part file))));
                       ("mimetype", VStr (mimetype (part file)))])]) |}
     end)
    (fun error =>
       console_error "❌ Error uploading image:" error ;;;
       ret {| statusCode := 500; body := jsonFailure "Failed to upload image" |}).

(** The acknowledgment of [deleteImage]. *)
Definition deleted : Response :=
  {| statusCode := 200;
     body := Json (VObj [("success", VBool true);
                         ("message", VStr "Image deleted successfully")]) |}.

(** [deleteImage], on [req.body]. *)
Definition deleteImage (reqBody : Value) : M Response :=
  tryCatch
    (url <- lift (getProp reqBody "url") ;;
     (* [if (url && url.startsWith("/api/uploads/"))] *)
     (match url with
      | VStr s =>
          if truthy s && startsWith s "/api/uploads/" then
            let filename := Path.basename s in
            let filePath := Path.join uploadsDir filename in
            present <- existsSync filePath ;;
            if present then
              unlinkSync filePath ;;;
              console_log ("Deleted image: " +:+ filename)
            else ret tt
          else ret tt
      | other =>
          if truthy other then
            throw (TypeError "url.startsWith is not a function")
          else ret tt
      end) ;;;
     ret {| statusCode := 200;
            body := Json (VObj [("success", VBool true);
                                ("message", VStr "Image deleted successfully")]) |})
    (fun error =>
       console_error "Error deleting image:" error ;;;
       ret {| statusCode := 500; body := jsonFailure "Failed to delete image" |}).

Definition failedDelete : Response :=
  {| statusCode := 500; body := jsonFailure "Failed to delete image" |}.

(** The path a request body makes [deleteImage] look at, if any. *)
Definition deleteTarget (reqBody : Value) : option (list string) :=
  match getProp reqBody "url" with
  | Returned (VStr s) =>
      if truthy s && startsWith s "/api/uploads/"
      then Some (Path.join uploadsDir (Path.basename s))
      else None
  | _ => None
  end.

(** Whether the handler gets as far as its success response
    without looking at the disk. *)
Definition deleteThrows (reqBody : Value) : bool :=
  match getProp reqBody "url" with
  | Returned (VStr _) => false
  | Returned other => truthy other
  | Raised _ => true
  end.

(** [createServer] registers no error-handling middleware, so
    [next(err)] ends in Express's own final handler: the status is
    [err.status] when the error carries one (neither a [MulterError]
    nor an error of [fs] does) and 500 otherwise, the body an HTML
    page. *)
Definition finalHandler (e : JsError) : Response :=
  {| statusCode := 500; body := Html "Internal Server Error" |}.

(** [app.post("/api/upload/image", uploadMiddleware, uploadImage)] *)
Definition postUploadImage (rq : UploadRequest) : M Response :=
  next <- uploadMiddleware rq ;;
  match next with
  | NextOk file => uploadImage file
  | NextErr e => ret (finalHandler e)
  end.

(** [app.delete("/api/upload/image", deleteImage)] *)
Definition deleteUploadImage (reqBody : Value) : M Response :=
  deleteImage reqBody.

(** The shape every handler of this file gives a refusal:
    a 4xx status and [{success: false, error: <message>}]. *)
Definition structuredClientError (r : Response) : Prop :=
  400 <= statusCode r <= 499 /\
  exists message, body r = jsonFailure message.
End Server.
End Upload.

(** ** Start-up of the upload routes, and the resume storage *)

(** Whether a request came back with a successful response. *)
Definition succeeded (outcome : FetchOutcome) : bool :=
  match outcome with
  | FetchResponse r => ok r
  | FetchThrows _ => false
  end.

(** [path.join(base, a, b, ...)] for an absolute [base]. *)
Definition joinAll (base : list string) (parts : list string) : list string :=
  Path.normalize (base ++ concat (map Path.splitSlash parts)).

(** [fs.mkdirSync(p, { recursive: true })], one component at a time
    from the root: a missing directory is created, an existing one is
    passed through, a file in the way makes the call throw (what was
    created before stays).  The call shows by its effect on the disk;
    the trace [fsCalls] keeps the [existsSync] and [unlinkSync] calls. *)
Fixpoint mkdirEach (parent rest : list string) (d : gmap (list string) Node)
  : Completion unit * gmap (list string) Node :=
  match rest with
  | [] => (Returned tt, d)
  | name :: rest' =>
      let here := (parent ++ [name])%list in
      match d !! here with
      | Some File =>
          (Raised (Error (match rest' with
                          | [] => "EEXIST: file already exists, mkdir"
                          | _ => "ENOTDIR: not a directory, mkdir"
                          end)), d)
      | Some Dir => mkdirEach here rest' d
      | None => mkdirEach here rest' (<[here := Dir]> d)
      end
  end.

#[export] Instance Node_eq_dec : EqDecision Node.
Proof. solve_decision. Defined.

Definition mkdirSync (p : list string) : M unit := fun w =>
  let '(c, d) := mkdirEach [] p (disk w) in
  (c, onDisk (fun _ => d) w).

Module Startup.
Section Startup.
Variable cwd : list string.

(** The top of [upload.ts]:
    [if (!fs.existsSync(uploadsDir)) fs.mkdirSync(uploadsDir, { recursive: true })]. *)
Definition ensureUploadsDir : M unit :=
  present <- existsSync (Upload.uploadsDir cwd) ;;
  if negb present then mkdirSync (Upload.uploadsDir cwd) else ret tt.
End Startup.
End Startup.

(** [resumeStorage]: its two callbacks. *)
Module Resume.
Section Resume.
Variable cwd : list string.

Definition resumesDir : list string := joinAll cwd ["uploads"; "resumes"].

(** [destination]: the directory handed to [cb], created when missing. *)
Definition destination : M (list string) :=
  present <- existsSync resumesDir ;;
  (if negb present then mkdirSync resumesDir else ret tt) ;;;
  ret resumesDir.

(** [filename] *)
Definition filename (rq : Upload.UploadRequest) (file : Upload.FilePart) : string :=
  let uniqueSuffix := showZ (Upload.now rq) +:+ "-" +:+ showZ (Upload.random rq) in
  let ext := Path.extname (Upload.originalname file) in
  "resume-" +:+ uniqueSuffix +:+ ext.
End Resume.
End Resume.

(** ** The answers of [uploadImage] *)

(** The 400 for a request without a file that passes the filter. *)
Definition noImage : Upload.Response :=
  {| Upload.statusCode := 400;
     Upload.body := Upload.Json (VObj [
       ("success", VBool false);
       ("error", VStr "No valid image file provided. Please upload a valid image file (PNG, JPG, GIF, etc.)")]) |}.

(** The success answer for [file] stored under [name]. *)
Definition uploaded (file : Upload.FilePart) (name : string) : Upload.Response :=
  {| Upload.statusCode := 200;
     Upload.body := Upload.Json (VObj [
       ("success", VBool true);
       ("data", VObj [
          ("url", VStr ("/api/uploads/" +:+ name));
          ("filename", VStr (Upload.originalname file));
          ("size", VNum (showZ (Upload.size file)));
          ("mimetype", VStr (Upload.mimetype file))])]) |}.

(** The file parts multer looks at: those that carry a file name. *)
Definition named (rq : Upload.UploadRequest) : list Upload.FilePart :=
  List.filter (fun file => truthy (Upload.originalname file)) (Upload.files rq).

(** The page of Express's final handler. *)
Definition errorPage : Upload.Response :=
  {| Upload.statusCode := 500; Upload.body := Upload.Html "Internal Server Error" |}.

(** ** The calendar, one 400-year era at a time *)

(** [civilFromDays] within an era: year of era, month and day of the
    day of era [doe]. *)
Definition eraCivil (doe : Z) : Z * Z * Z :=
  let yoe := (doe - doe / 1460 + doe / 36524 - doe / 146096) / 365 in
  let doy := doe - (365 * yoe + yoe / 4 - yoe / 100) in
  let mp := (5 * doy + 2) / 153 in
  let d := doy - (153 * mp + 2) / 5 + 1 in
  let m := if mp <? 10 then mp + 3 else mp - 9 in
  (yoe, m, d).

(** What is to hold of one day of era: its date is a legal one, and
    [daysFromCivil] leads back to it. *)
Definition dayOk (doe : Z) : bool :=
  let '(yoe, m, d) := eraCivil doe in
  let yr := if m <=? 2 then yoe + 1 else yoe in
  let mp := if m <=? 2 then m + 9 else m - 3 in
  (0 <=? yoe) && (yoe <=? 399) && (1 <=? m) && (m <=? 12) && (1 <=? d)
  && (d <=? JsDate.daysInMonth yr m)
  && (yoe * 365 + yoe / 4 - yoe / 100 + ((153 * mp + 2) / 5 + d - 1) =? doe)
  && (if doe <=? 146036 then yr <=? 399 else yr =? 400).

Fixpoint checkFrom (fuel : nat) (z : Z) : bool :=
  match fuel with
  | O => true
  | S f => if dayOk z then checkFrom f (z + 1) else false
  end.

(** The instants of the years 0 to 9999:
    [0000-01-01T00:00:00.000Z] and [9999-12-31T23:59:59.999Z]. *)
Definition firstInstant : Z := -62167219200000.
Definition lastInstant : Z := 253402300799999.

(** ** Sample data *)

Definition sampleContact : Contact.t := {|
  Contact.name := "A"; Contact.email := "a@x.com";
  Contact.phone := None; Contact.company := None;
  Contact.message := "hi"; Contact.created_at := "2024-01-01T00:00:00Z"
|}.

Definition notConfiguredBackend : Fetch := fun _ =>
  FetchResponse {| status := 200;
                   payload := Some (VObj [("success", VBool true);
                                          ("data", VObj [("configured", VBool false)])]) |}.

Definition sampleDisk : gmap (list string) Node :=
  <[ ["srv"; "app"; "uploads"; "image-1-2.png"] := File ]>
  (<[ ["srv"; "app"; "uploads"] := Dir ]>
  (<[ ["srv"; "app"] := Dir ]>
  (<[ ["srv"; "app"; "secret.env"] := File ]> ∅))).

Definition sampleServer : World :=
  {| console := []; network := []; disk := sampleDisk; fsCalls := [] |}.

Definition urlBody (url : string) : Value := VObj [("url", VStr url)].

Definition bigPng : Upload.UploadRequest := {|
  Upload.files := [{| Upload.fieldname := "image";
                      Upload.originalname := "big.png";
                      Upload.mimetype := "image/png";
                      Upload.size := 6 * 1024 * 1024 |}];
  Upload.now := 1704067200000;
  Upload.random := 123456789
|}.

Definition catPng : Upload.FilePart :=
  {| Upload.fieldname := "image"; Upload.originalname := "cat.png";
     Upload.mimetype := "image/png"; Upload.size := 2048 |}.


(** The uploads directory is a regular file. *)
Definition brokenServer : World :=
  {| console := []; network := [];
     disk := <[ ["srv"; "app"; "uploads"] := File ]>
             (<[ ["srv"; "app"] := Dir ]> ∅);
     fsCalls := [] |}.

(** ** Proof automation *)

(** Unfold the combinators of [M] down to the world they produce. *)
Ltac reduce :=
  cbn beta iota delta [fst snd console network disk fsCalls] in *.

Ltac run :=
  unfold doFetch, existsSync, unlinkSync, await in *;
  unfold receive, sendRequest, responseJson, console_log, console_warn,
    console_error, traceFs in *;
  unfold emit, tryCatch, bind, ret, throw, lift, onDisk in *;
  cbn beta iota delta [fst snd console network disk fsCalls] in *.

(** * Properties *)

(** ** Sample runs of [Date] and [path] *)

Example newDate_2024 :
  @JsDate.newDate strictHost "2024-01-01T00:00:00Z" = Some 1704067200000.
Proof. reflexivity. Qed.

Example toISOString_2024 :
  JsDate.toISOString (Some 1704067200000) = Returned "2024-01-01T00:00:00.000Z".
Proof. reflexivity. Qed.

Example toISOString_leap_day :
  JsDate.toISOString (@JsDate.newDate strictHost "2024-02-29T23:59:58.123Z")
  = Returned "2024-02-29T23:59:58.123Z".
Proof. reflexivity. Qed.

Example toISOString_before_epoch :
  JsDate.toISOString (Some (-1)) = Returned "1969-12-31T23:59:59.999Z".
Proof. reflexivity. Qed.

Example newDate_garbage :
  JsDate.toISOString (@JsDate.newDate strictHost "yesterday")
  = Raised (RangeError "Invalid time value").
Proof. reflexivity. Qed.

Example basename_plain : Path.basename "/api/uploads/image-1-2.png" = "image-1-2.png".
Proof. reflexivity. Qed.

Example basename_traversal : Path.basename "/api/uploads/../../etc/passwd" = "passwd".
Proof. reflexivity. Qed.

Example basename_trailing : Path.basename "/api/uploads/" = "uploads".
Proof. reflexivity. Qed.

Example basename_dotdot : Path.basename "/api/uploads/.." = "..".
Proof. reflexivity. Qed.

Example extname_png : Path.extname "holiday.photo.png" = ".png".
Proof. reflexivity. Qed.

Example extname_hidden : Path.extname ".bashrc" = "".
Proof. reflexivity. Qed.

Example join_parent : Path.join ["srv"; "app"; "uploads"] ".." = ["srv"; "app"].
Proof. reflexivity. Qed.

(** ** Sample runs of [String] *)

Example toStr_array :
  toStr (VArr [VNum "1"; VNull; VArr [VStr "a"; VNum "1e+21"]; VBool true])
  = Returned "1,,a,1e+21,true".
Proof. reflexivity. Qed.

Example toStr_object :
  toStr (VObj [("message", VStr "x")]) = Returned "[object Object]"
  /\ toStr (VObj [("toString", VNum "1")])
     = Raised (TypeError "Cannot convert object to primitive value")
  /\ toStr (VArr [VStr "a"; VObj [("toString", VNull)]])
     = Raised (TypeError "Cannot convert object to primitive value").
Proof. repeat split. Qed.

(** ** Running effectful code *)

Lemma truthy_string (s : string) : truthy s = true <-> s <> "".
Proof.
  unfold truthy, string_truthy. rewrite negb_true_iff. apply String.eqb_neq.
Qed.

Lemma truthy_string_false (s : string) : truthy s = false <-> s = "".
Proof.
  unfold truthy, string_truthy. rewrite negb_false_iff. apply String.eqb_eq.
Qed.

Lemma orEmpty_absent : orEmpty None = "".
Proof. reflexivity. Qed.


Lemma toISOString_valid (t : Z) :
  JsDate.toISOString (Some t) = Returned (JsDate.isoString t).
Proof. reflexivity. Qed.

Lemma withTimestamp_valid `{Host} (timestamp : string) (cells : list string) (t : Z) :
  JsDate.newDate timestamp = Some t ->
  Rows.withTimestamp timestamp cells = Returned [JsDate.isoString t :: cells].
Proof. intros E. unfold Rows.withTimestamp, Rows.isoOf. now rewrite E. Qed.

Lemma withTimestamp_invalid `{Host} (timestamp : string) (cells : list string) :
  JsDate.newDate timestamp = None ->
  Rows.withTimestamp timestamp cells = Raised (RangeError "Invalid time value").
Proof. intros E. unfold Rows.withTimestamp, Rows.isoOf. now rewrite E. Qed.

(** ** The direct-mode client *)

Lemma isConfigured_iff (config : GoogleSheetsConfig) :
  Direct.isConfigured config = true
  <-> spreadsheetId config <> "" /\ apiKey config <> "".
Proof.
  unfold Direct.isConfigured. rewrite negb_involutive.
  destruct (truthy (spreadsheetId config)) eqn:E.
  - rewrite truthy_string. apply truthy_string in E. tauto.
  - rewrite E. apply truthy_string_false in E. split; [discriminate | tauto].
Qed.

Lemma isConfigured_false_iff (config : GoogleSheetsConfig) :
  Direct.isConfigured config = false
  <-> spreadsheetId config = "" \/ apiKey config = "".
Proof.
  rewrite <- not_true_iff_false, isConfigured_iff.
  destruct (String.eqb_spec (spreadsheetId config) "");
    destruct (String.eqb_spec (apiKey config) ""); tauto.
Qed.

(** C5.  [isConfigured] holds exactly when both the spreadsheet
    identifier and the API key are non-empty; and when either is
    empty, [appendToSheet] returns [false], its only effect being the
    warning on the console: no request is sent. *)
Theorem appendToSheet_not_configured
    (config : GoogleSheetsConfig) (fetch : Fetch)
    (sheetName : string) (values : list (list string)) (w : World) :
  (Direct.isConfigured config = true
   <-> spreadsheetId config <> "" /\ apiKey config <> "")
  /\ (spreadsheetId config = "" \/ apiKey config = "" ->
      Direct.appendToSheet config fetch sheetName values w
      = (Returned false,
         logged w LWarn "Google Sheets not configured. Skipping sync." None)
      /\ network (snd (Direct.appendToSheet config fetch sheetName values w))
         = network w).
Proof.
  split; [apply isConfigured_iff|].
  intros Hempty. apply isConfigured_false_iff in Hempty.
  unfold Direct.appendToSheet. rewrite Hempty. cbn [negb]. run.
  split; reflexivity.
Qed.

Lemma appendToSheet_not_configured_witness :
  Direct.appendToSheet {| spreadsheetId := "sheet-1"; apiKey := "" |}
    (fun _ => FetchResponse {| status := 200; payload := None |})
    "Contacts" [["a"; "b"]] emptyWorld
  = (Returned false,
     logged emptyWorld LWarn "Google Sheets not configured. Skipping sync." None)
  /\ network (snd (Direct.appendToSheet {| spreadsheetId := "sheet-1"; apiKey := "" |}
                     (fun _ => FetchResponse {| status := 200; payload := None |})
                     "Contacts" [["a"; "b"]] emptyWorld))
     = network emptyWorld.
Proof.
  apply (proj2 (appendToSheet_not_configured
                  {| spreadsheetId := "sheet-1"; apiKey := "" |}
                  (fun _ => FetchResponse {| status := 200; payload := None |})
                  "Contacts" [["a"; "b"]] emptyWorld)).
  right. reflexivity.
Defined.

Lemma status_401_not_ok (r : HttpResponse) : status r = 401 -> ok r = false.
Proof. intros E. unfold ok. rewrite E. reflexivity. Qed.

(** What [appendToSheet] returns, in one line. *)
Lemma appendToSheet_returns
    (config : GoogleSheetsConfig) (fetch : Fetch)
    (sheetName : string) (values : list (list string)) (w : World) :
  fst (Direct.appendToSheet config fetch sheetName values w)
  = Returned (Direct.isConfigured config
              && match fetch (Direct.appendRequest config sheetName values) with
                 | FetchResponse r => ok r
                 | FetchThrows _ => false
                 end).
Proof.
  unfold Direct.appendToSheet.
  destruct (Direct.isConfigured config); cbn [negb andb]; run; [|reflexivity].
  destruct (fetch _) as [e|r]; [reflexivity|].
  destruct (ok r); cbn [negb]; [reflexivity|].
  destruct (payload r) as [v|]; destruct (status r =? 401); try reflexivity;
    destruct (Direct.errorMessage v); reflexivity.
Qed.

(** A successful response: one request, the success line, [true]. *)
Lemma appendToSheet_success
    (config : GoogleSheetsConfig) (fetch : Fetch)
    (sheetName : string) (values : list (list string)) (w : World)
    (r : HttpResponse) :
  Direct.isConfigured config = true ->
  fetch (Direct.appendRequest config sheetName values) = FetchResponse r ->
  ok r = true ->
  Direct.appendToSheet config fetch sheetName values w
  = (Returned true,
     logged (requested w (Direct.appendRequest config sheetName values)) LLog
       ("✅ Successfully synced to Google Sheets: " +:+ sheetName) None).
Proof.
  intros Hconf Hr Hok. unfold Direct.appendToSheet.
  rewrite Hconf. cbn [negb]. run. rewrite Hr, Hok. reflexivity.
Qed.

(** C1.  [appendToSheet] never raises: whatever the sheet name, the
    rows and the outcome of the request, it returns a boolean.  When
    configured it returns [true] on a successful response (after the
    success line), and [false] on a 401 (after the two warnings), on
    any other unsuccessful status and on a failed request (after the
    error line); it returns [true] in no other case. *)
Theorem appendToSheet_never_raises
    (config : GoogleSheetsConfig) (fetch : Fetch)
    (sheetName : string) (values : list (list string)) (w : World) :
  let rq := Direct.appendRequest config sheetName values in
  let out := Direct.appendToSheet config fetch sheetName values w in
  (exists b, fst out = Returned b)
  /\ (Direct.isConfigured config = true ->
      (forall r, fetch rq = FetchResponse r -> ok r = true ->
         out = (Returned true,
                logged (requested w rq) LLog
                  ("✅ Successfully synced to Google Sheets: " +:+ sheetName) None))
      /\ (forall r, fetch rq = FetchResponse r -> status r = 401 ->
            out = (Returned false,
                   logged (logged (requested w rq) LWarn
                     "⚠️ Google Sheets API Key cannot write data. Read-only access available." None)
                     LWarn
                     "💡 For write access, configure OAuth2 or service account authentication." None))
      /\ (forall r, fetch rq = FetchResponse r -> ok r = false -> status r <> 401 ->
            exists e, out = (Returned false,
                             logged (requested w rq) LError
                               "❌ Error syncing to Google Sheets:" (Some e)))
      /\ (forall e, fetch rq = FetchThrows e ->
            out = (Returned false,
                   logged (requested w rq) LError
                     "❌ Error syncing to Google Sheets:" (Some e))))
  /\ (fst out = Returned true ->
      Direct.isConfigured config = true
      /\ exists r, fetch rq = FetchResponse r /\ ok r = true).
Proof.
  intros rq out. split; [|split].
  - eexists. apply appendToSheet_returns.
  - intros Hconf. subst out. split; [|unfold Direct.appendToSheet;
      rewrite Hconf; cbn [negb]; fold rq; run; repeat split].
    + intros r Hr Hok. now apply (appendToSheet_success config fetch sheetName values w r).
    + intros r -> H401. rewrite (status_401_not_ok r H401). cbn [negb].
      rewrite H401. destruct (payload r); reflexivity.
    + intros r -> Hok Hne. rewrite Hok. cbn [negb].
      apply Z.eqb_neq in Hne. rewrite Hne.
      destruct (payload r) as [v|]; [destruct (Direct.errorMessage v)|];
        eexists; reflexivity.
    + intros e ->. reflexivity.
  - subst out. rewrite appendToSheet_returns. fold rq. intros E.
    injection E as E. apply andb_true_iff in E as [Hc Hr]. split; [exact Hc|].
    destruct (fetch rq) as [e|r]; [discriminate|]. now exists r.
Qed.

Lemma appendToSheet_never_raises_witness :
  let config := {| spreadsheetId := "sheet-1"; apiKey := "key-1" |} in
  let fetch : Fetch := fun _ => FetchResponse {| status := 403; payload := None |} in
  exists e,
    Direct.appendToSheet config fetch "Contacts" [["a"]] emptyWorld
    = (Returned false,
       logged (requested emptyWorld (Direct.appendRequest config "Contacts" [["a"]]))
         LError "❌ Error syncing to Google Sheets:" (Some e)).
Proof.
  intros config fetch.
  refine (proj1 (proj2 (proj2 (proj1 (proj2
            (appendToSheet_never_raises config fetch "Contacts" [["a"]] emptyWorld))
            _))) {| status := 403; payload := None |} _ _ _).
  - reflexivity.
  - reflexivity.
  - reflexivity.
  - discriminate.
Defined.

Example appendToSheet_forbidden_log :
  console (snd (Direct.appendToSheet {| spreadsheetId := "sheet-1"; apiKey := "key-1" |}
                  (fun _ => FetchResponse
                     {| status := 403;
                        payload := Some (VObj [("error", VObj [("message", VStr "denied")])]) |})
                  "Contacts" [["a"]] emptyWorld))
  = [{| level := LError; text := "❌ Error syncing to Google Sheets:";
        attached := Some (Error "Google Sheets API error: 403 - denied") |}].
Proof. reflexivity. Qed.

(** ** The rows *)

Lemma newDate_iso `{Host} (s : string) (t : Z) :
  JsDate.isoInstant s = Some t -> Z.abs t <= 8640000000000000 ->
  JsDate.newDate s = Some t.
Proof.
  intros E Hclip. unfold JsDate.newDate. rewrite E. unfold JsDate.timeClip.
  apply Z.leb_le in Hclip. now rewrite Hclip.
Qed.

Lemma sync_after_values {A} (values : Completion A) (k : A -> M bool) (v : A) :
  values = Returned v -> forall w, (x <- lift values ;; k x) w = k v w.
Proof. intros -> w. reflexivity. Qed.

Lemma sampleContact_values `{Host} :
  Rows.contactValues sampleContact
  = Returned [["2024-01-01T00:00:00.000Z"; "A"; "a@x.com"; ""; ""; "hi"]].
Proof.
  unfold Rows.contactValues.
  rewrite (withTimestamp_valid _ _ 1704067200000).
  - reflexivity.
  - apply newDate_iso; [reflexivity | vm_compute; discriminate].
Qed.





(** An unparseable timestamp makes the conversion throw before
    anything is sent, in both clients alike. *)
Lemma syncContact_invalid_timestamp `{Host}
    (config : GoogleSheetsConfig) (fetch : Fetch) (c : Contact.t) (w : World) :
  JsDate.newDate (Contact.created_at c) = None ->
  Direct.syncContact config fetch c w = (Raised (RangeError "Invalid time value"), w).
Proof.
  intros E. unfold Direct.syncContact, Rows.contactValues.
  rewrite (withTimestamp_invalid _ _ E). reflexivity.
Qed.

(** ** [initializeSheets], direct mode *)

Lemma direct_initializeSheets (config : GoogleSheetsConfig) (w : World) :
  Direct.initializeSheets config w
  = (Returned tt,
     if Direct.isConfigured config
     then logged w LLog "Google Sheets service initialized" None
     else logged w LWarn "Google Sheets not configured. Skipping initialization." None).
Proof.
  unfold Direct.initializeSheets. destruct (Direct.isConfigured config); reflexivity.
Qed.

(** ** The proxy-mode client *)

(** [syncToServer] itself never raises. *)
Lemma syncToServer_never_raises (fetch : Fetch) (endpoint : string) (data : Value) (w : World) :
  exists v, fst (Proxy.syncToServer fetch endpoint data w) = Returned v.
Proof.
  unfold Proxy.syncToServer. run.
  destruct (fetch _) as [e|r]; [eexists; reflexivity|].
  destruct (ok r); cbn [negb]; [|eexists; reflexivity].
  destruct (payload r) as [result|]; [|eexists; reflexivity].
  destruct (getProp result "success") as [success|e]; [|eexists; reflexivity].
  destruct (truthy success).
  - destruct (getProp result "synced"); eexists; reflexivity.
  - destruct (getProp result "error") as [err|e]; [|eexists; reflexivity].
    destruct (if truthy err then toStr err else Returned "Sync failed");
      eexists; reflexivity.
Qed.

Lemma callMember_missing {A B C} (name : string) (a : A) (b : B) (w : World) :
  @Proxy.callMember A B C name None a b w
  = (Raised (TypeError ("this." +:+ name +:+ " is not a function")), w).
Proof. reflexivity. Qed.

Lemma proxy_sync_raises (values : Completion (list (list string)))
      (sheet : string) (w : World) :
  exists e,
    (v <- lift values ;;
     Proxy.callMember "appendToSheet" Proxy.this_appendToSheet sheet v) w
    = (Raised e, w).
Proof. destruct values; eexists; reflexivity. Qed.

(** C3 (what the code does).  In the proxy-mode client every public
    sync method raises on every submission, sending nothing: the
    method it ends with, [this.appendToSheet], does not exist in this
    class.  The sample contact, whose timestamp is valid, is rejected
    with a [TypeError]. *)
Theorem proxy_sync_methods_raise `{Host} (w : World) :
  Proxy.syncContact sampleContact w
  = (Raised (TypeError "this.appendToSheet is not a function"), w)
  /\ (forall c, exists e, Proxy.syncContact c w = (Raised e, w))
  /\ (forall a, exists e, Proxy.syncJobApplication a w = (Raised e, w))
  /\ (forall r, exists e, Proxy.syncGetStartedRequest r w = (Raised e, w))
  /\ (forall u, exists e, Proxy.syncResumeUpload u w = (Raised e, w))
  /\ (forall n, exists e, Proxy.syncNewsletterSubscription n w = (Raised e, w)).
Proof.
  split; [|repeat split; intros x; apply proxy_sync_raises].
  unfold Proxy.syncContact.
  rewrite (sync_after_values _ _ _ sampleContact_values). reflexivity.
Qed.

(** [initializeSheets] of the proxy client, whatever the backend says. *)
Lemma proxy_initializeSheets (fetch : Fetch) (w : World) :
  exists p,
    Proxy.initializeSheets fetch w
    = (Returned p,
       logged (requested w Proxy.statusRequest) LLog
         "Google Sheets service initialized" None).
Proof. eexists. reflexivity. Qed.

(** C9 (what the code does).  Against a backend whose status reads
    [configured: false], the proxy client's [initializeSheets] prints
    the readiness line and no warning: it tests the promise returned
    by [isConfigured], not the value it resolves to (here [false]). *)
Theorem proxy_initializeSheets_not_configured :
  exists p w1,
    Proxy.initializeSheets notConfiguredBackend emptyWorld = (Returned p, w1)
    /\ fst (resume p w1) = Returned (VBool false)
    /\ console (settle p w1)
       = [{| level := LLog; text := "Google Sheets service initialized";
             attached := None |}].
Proof. do 2 eexists. repeat split. Qed.

(** ** [withGoogleSheetsSync] *)

(** X6.  When the sync operation hands back a promise, the primary
    result is returned as it is, before that promise is looked at; the
    promise left behind never rejects, and logs a rejection of the
    sync. *)
Lemma withGoogleSheetsSync_background {T}
    (supabaseOperation : M (Promise T)) (syncOperation : M (Promise bool))
    (w w1 w2 w3 : World) (started : Promise T) (result : T) (sync : Promise bool) :
  supabaseOperation w = (Returned started, w1) ->
  resume started w1 = (Returned result, w2) ->
  syncOperation w2 = (Returned sync, w3) ->
  exists background,
    withGoogleSheetsSync supabaseOperation syncOperation w
    = (Returned (result, background), w3)
    /\ (forall w', fst (resume background w') = Returned tt)
    /\ (forall w' e w'', resume sync w' = (Raised e, w'') ->
          resume background w'
          = (Returned tt,
             logged w'' LError "Background Google Sheets sync failed:" (Some e)))
    /\ (forall w' b w'', resume sync w' = (Returned b, w'') ->
          resume background w' = (Returned tt, w'')).
Proof.
  intros H1 H2 H3. eexists. unfold withGoogleSheetsSync. run.
  rewrite H1, H2, H3. split; [reflexivity|].
  unfold promiseCatch. cbn [resume]. run. repeat split.
  - intros w'. destruct (resume sync w') as [[b|e] w'']; reflexivity.
  - intros w' e w'' E. rewrite E. reflexivity.
  - intros w' b w'' E. rewrite E. reflexivity.
Qed.

(** A failing primary operation fails the whole call, and the sync
    operation is not started. *)
Lemma withGoogleSheetsSync_primary_rejects {T}
    (supabaseOperation : M (Promise T)) (syncOperation : M (Promise bool))
    (w w1 w2 : World) (started : Promise T) (e : JsError) :
  supabaseOperation w = (Returned started, w1) ->
  resume started w1 = (Raised e, w2) ->
  withGoogleSheetsSync supabaseOperation syncOperation w = (Raised e, w2).
Proof.
  intros H1 H2. unfold withGoogleSheetsSync. run. now rewrite H1, H2.
Qed.

(** C2 (what the code does).  A sync operation that throws when it is
    called, instead of handing back a rejected promise, is not caught:
    the call raises that error and the primary result is lost. *)
Theorem withGoogleSheetsSync_sync_throws {T} (result : T) (e : JsError) (w : World) :
  withGoogleSheetsSync (asyncCall (ret result)) (throw e) w = (Raised e, w).
Proof. reflexivity. Qed.

(** ** Paths *)

Lemma properName_split (s : string) :
  Path.properName s = Path.plainName s && Path.noSlash s.
Proof. reflexivity. Qed.

Lemma splitSlash_not_nil (s : string) : Path.splitSlash s <> [].
Proof.
  induction s as [|c rest IH]; cbn; [discriminate|].
  destruct (Path.isSlash c); [discriminate|].
  destruct (Path.splitSlash rest); [contradiction | discriminate].
Qed.

Lemma splitSlash_noSlash (s : string) :
  Forall (fun piece => Path.noSlash piece = true) (Path.splitSlash s).
Proof.
  induction s as [|c rest IH]; cbn.
  - repeat constructor.
  - destruct (Path.isSlash c) eqn:Ec.
    + constructor; [reflexivity | exact IH].
    + destruct (Path.splitSlash rest) as [|piece pieces].
      * repeat constructor. unfold Path.noSlash. cbn. now rewrite Ec.
      * inversion IH; subst. constructor; [|assumption].
        unfold Path.noSlash in *. cbn. now rewrite Ec.
Qed.

Lemma splitSlash_whole (s : string) :
  Path.noSlash s = true -> Path.splitSlash s = [s].
Proof.
  induction s as [|c rest IH]; [reflexivity|].
  unfold Path.noSlash. cbn. intros E. apply andb_true_iff in E as [Ec Er].
  apply negb_true_iff in Ec. rewrite Ec. fold (Path.noSlash rest) in Er.
  now rewrite (IH Er).
Qed.

Lemma last_default_or_In {A} (l : list A) (d : A) :
  List.last l d = d \/ In (List.last l d) l.
Proof.
  induction l as [|x l IH]; [now left|].
  destruct l as [|y l]; [right; now left|].
  destruct IH as [E|E]; [left | right; right]; exact E.
Qed.

Lemma basename_noSlash (p : string) : Path.noSlash (Path.basename p) = true.
Proof.
  unfold Path.basename.
  destruct (last_default_or_In (Path.components p) "") as [E|E].
  - now rewrite E.
  - unfold Path.components in E. apply filter_In in E as [E _].
    pose proof (splitSlash_noSlash p) as F.
    exact (proj1 (List.Forall_forall _ _) F _ E).
Qed.

Lemma step_plain (resolved : list string) (name : string) :
  Path.plainName name = true -> Path.step resolved name = (resolved ++ [name])%list.
Proof.
  unfold Path.plainName, Path.step. intros E.
  apply andb_true_iff in E as [E E3]. apply andb_true_iff in E as [E1 E2].
  apply negb_true_iff in E1, E2, E3. now rewrite E1, E2, E3.
Qed.

Lemma step_keeps_plain (resolved : list string) (piece : string) :
  Forall (fun name => Path.plainName name = true) resolved ->
  Forall (fun name => Path.plainName name = true) (Path.step resolved piece).
Proof.
  intros F. unfold Path.step.
  destruct (String.eqb piece "" || String.eqb piece ".") eqn:E1; [exact F|].
  destruct (String.eqb piece "..") eqn:E2.
  - clear -F. induction F as [|x l Hx F IH]; [constructor|].
    destruct l; [constructor|]. cbn [removelast]. constructor; assumption.
  - apply Forall_app; split; [exact F|]. repeat constructor.
    apply orb_false_iff in E1 as [Ea Eb]. unfold Path.plainName.
    now rewrite Ea, Eb, E2.
Qed.

Lemma fold_step_keeps_plain (pieces resolved : list string) :
  Forall (fun name => Path.plainName name = true) resolved ->
  Forall (fun name => Path.plainName name = true) (fold_left Path.step pieces resolved).
Proof.
  revert resolved. induction pieces as [|x l IH]; intros resolved F; [exact F|].
  cbn. apply IH. now apply step_keeps_plain.
Qed.

Lemma normalize_plain (pieces : list string) :
  Forall (fun name => Path.plainName name = true) (Path.normalize pieces).
Proof. apply fold_step_keeps_plain. constructor. Qed.

Lemma fold_step_fixed (pieces resolved : list string) :
  Forall (fun name => Path.plainName name = true) pieces ->
  fold_left Path.step pieces resolved = (resolved ++ pieces)%list.
Proof.
  revert resolved. induction pieces as [|x l IH]; intros resolved F.
  - now rewrite app_nil_r.
  - inversion F; subst. cbn. rewrite step_plain by assumption.
    rewrite IH by assumption. now rewrite <- app_assoc.
Qed.

(** Joining one more slash-free piece onto a normalized path is one
    [step]. *)
Lemma join_one (base : list string) (name : string) :
  Forall (fun n => Path.plainName n = true) base -> Path.noSlash name = true ->
  Path.join base name = Path.step base name.
Proof.
  intros F N. unfold Path.join, Path.normalize.
  rewrite (splitSlash_whole _ N), fold_left_app.
  rewrite (fold_step_fixed base [] F). reflexivity.
Qed.

(** ** [deleteImage] *)

Section DeleteImage.
Variable cwd : list string.

Lemma uploadsDir_plain : Forall (fun n => Path.plainName n = true) (Upload.uploadsDir cwd).
Proof. apply normalize_plain. Qed.


(** The handler, case by case. *)
Lemma deleteImage_cases (reqBody : Value) (w : World) :
  match Upload.deleteTarget cwd reqBody with
  | Some p =>
      match disk w !! p with
      | Some File =>
          fst (Upload.deleteImage cwd reqBody w) = Returned Upload.deleted
          /\ disk (snd (Upload.deleteImage cwd reqBody w)) = delete p (disk w)
          /\ fsCalls (snd (Upload.deleteImage cwd reqBody w))
             = (fsCalls w ++ [ExistsSync p; UnlinkSync p])%list
      | Some Dir =>
          fst (Upload.deleteImage cwd reqBody w) = Returned Upload.failedDelete
          /\ disk (snd (Upload.deleteImage cwd reqBody w)) = disk w
          /\ fsCalls (snd (Upload.deleteImage cwd reqBody w))
             = (fsCalls w ++ [ExistsSync p; UnlinkSync p])%list
      | None =>
          Upload.deleteImage cwd reqBody w
          = (Returned Upload.deleted,
             {| console := console w; network := network w; disk := disk w;
                fsCalls := fsCalls w ++ [ExistsSync p] |})
      end
  | None =>
      if Upload.deleteThrows reqBody then
        fst (Upload.deleteImage cwd reqBody w) = Returned Upload.failedDelete
        /\ disk (snd (Upload.deleteImage cwd reqBody w)) = disk w
        /\ fsCalls (snd (Upload.deleteImage cwd reqBody w)) = fsCalls w
      else
        Upload.deleteImage cwd reqBody w = (Returned Upload.deleted, w)
  end.
Proof.
  unfold Upload.deleteTarget, Upload.deleteThrows, Upload.deleteImage.
  destruct (getProp reqBody "url") as [url|e]; run; [|repeat split].
  destruct url as [| |b|n|s|l|l]; cbn [truthy value_truthy];
    try (destruct w; reflexivity);
    try (repeat split; fail).
  - destruct b; [repeat split | destruct w; reflexivity].
  - destruct (negb (_ || _)); [repeat split | destruct w; reflexivity].
  - destruct (truthy s && startsWith s "/api/uploads/"); [|destruct w; reflexivity].
    set (p := Path.join (Upload.uploadsDir cwd) (Path.basename s)).
    reduce.
    destruct (disk w !! p) as [[|]|] eqn:E.
    + rewrite bool_decide_eq_true_2 by eauto. reduce. rewrite E. reduce.
      repeat split. now rewrite <- app_assoc.
    + rewrite bool_decide_eq_true_2 by eauto. reduce. rewrite E. reduce.
      repeat split. now rewrite <- app_assoc.
    + rewrite bool_decide_eq_false_2 by (intros [? ?]; discriminate).
      reflexivity.
Qed.
End DeleteImage.




Example deleteImage_traversal_misses :
  disk (snd (Upload.deleteImage ["srv"; "app"]
               (urlBody "/api/uploads/../secret.env") sampleServer))
    !! ["srv"; "app"; "secret.env"] = Some File.
Proof. reflexivity. Qed.

Example deleteImage_parent_directory :
  fst (Upload.deleteImage ["srv"; "app"] (urlBody "/api/uploads/..") sampleServer)
  = Returned Upload.failedDelete
  /\ disk (snd (Upload.deleteImage ["srv"; "app"] (urlBody "/api/uploads/..") sampleServer))
     = sampleDisk.
Proof. split; reflexivity. Qed.

(** C8.  [deleteImage] always answers (it never raises); deleting
    with the same body a second time gives the same response as the
    first time and leaves the disk as the first left it; and a URL
    whose file does not exist (never did, or was deleted before) is
    acknowledged with status 200 and
    [{success: true, message: "Image deleted successfully"}], the disk
    untouched. *)
Theorem deleteImage_idempotent (cwd : list string) (reqBody : Value) (w : World) :
  let first := Upload.deleteImage cwd reqBody w in
  let second := Upload.deleteImage cwd reqBody (snd first) in
  (exists response, fst first = Returned response)
  /\ fst second = fst first
  /\ disk (snd second) = disk (snd first)
  /\ (forall url,
        getProp reqBody "url" = Returned (VStr url) ->
        disk w !! Path.join (Upload.uploadsDir cwd) (Path.basename url) = None ->
        fst first
        = Returned {| Upload.statusCode := 200;
                      Upload.body := Upload.Json (VObj [
                        ("success", VBool true);
                        ("message", VStr "Image deleted successfully")]) |}
        /\ disk (snd first) = disk w).
Proof.
  intros first second. subst second. fold Upload.deleted.
  pose proof (deleteImage_cases cwd reqBody w) as C.
  pose proof (deleteImage_cases cwd reqBody (snd first)) as C2.
  fold first in C.
  assert (Hlast : forall url,
             getProp reqBody "url" = Returned (VStr url) ->
             disk w !! Path.join (Upload.uploadsDir cwd) (Path.basename url) = None ->
             fst first = Returned Upload.deleted /\ disk (snd first) = disk w).
  { intros url Hurl Habsent. revert C.
    unfold Upload.deleteTarget, Upload.deleteThrows. rewrite Hurl.
    destruct (truthy url && startsWith url "/api/uploads/").
    - rewrite Habsent. intros ->. split; reflexivity.
    - intros ->. split; reflexivity. }
  cut ((exists response, fst first = Returned response)
       /\ fst (Upload.deleteImage cwd reqBody (snd first)) = fst first
       /\ disk (snd (Upload.deleteImage cwd reqBody (snd first))) = disk (snd first));
    [tauto|].
  clear Hlast.
  destruct (Upload.deleteTarget cwd reqBody) as [target|] eqn:T.
  - destruct (disk w !! target) as [[|]|] eqn:E.
    + destruct C as (R & D & _). rewrite D, lookup_delete_eq in C2.
      rewrite C2, R, D. reduce. eauto.
    + destruct C as (R & D & _). rewrite D, E in C2.
      destruct C2 as (R2 & D2 & _). rewrite R2, D2, R. eauto.
    + rewrite C in C2 |- *. reduce. rewrite E in C2.
      rewrite C2. reduce. eauto.
  - destruct (Upload.deleteThrows reqBody).
    + destruct C as (R & D & _). destruct C2 as (R2 & D2 & _).
      rewrite R2, D2, R. eauto.
    + rewrite C in C2 |- *. rewrite C2. reduce. eauto.
Qed.

Lemma deleteImage_idempotent_witness :
  fst (Upload.deleteImage ["srv"; "app"] (urlBody "/api/uploads/gone.png") sampleServer)
  = Returned {| Upload.statusCode := 200;
                Upload.body := Upload.Json (VObj [
                  ("success", VBool true);
                  ("message", VStr "Image deleted successfully")]) |}
  /\ disk (snd (Upload.deleteImage ["srv"; "app"]
                  (urlBody "/api/uploads/gone.png") sampleServer))
     = disk sampleServer.
Proof.
  apply (proj2 (proj2 (proj2 (deleteImage_idempotent ["srv"; "app"]
                                (urlBody "/api/uploads/gone.png") sampleServer)))
           "/api/uploads/gone.png").
  - reflexivity.
  - reflexivity.
Defined.

Lemma lookupProp_absent (key : string) (props : list (string * Value)) :
  ~ In key (map fst props) -> lookupProp key props = VUndefined.
Proof.
  induction props as [|[k v] rest IH]; [reflexivity|].
  cbn. intros Hnot. rewrite IH by tauto.
  destruct (String.eqb_spec k key); [tauto | reflexivity].
Qed.

(** C10 (amended).  A delete request whose body is an object without
    a [url] field, or whose [url] is falsy, or is a string that does
    not start with [/api/uploads/], has no effect whatever (no call to
    [fs], nothing logged) and is answered with status 200 and
    [{success: true, message: "Image deleted successfully"}]; and that
    is the very response of a request that did remove a file.  A
    request whose body cannot be read, or whose [url] is truthy and
    not a string, makes no call to [fs] either, but is answered with
    status 500 and [{success: false, error: "Failed to delete image"}]. *)
Theorem deleteImage_ignored (cwd : list string) (reqBody : Value) (w : World) :
  let acknowledged :=
    {| Upload.statusCode := 200;
       Upload.body := Upload.Json (VObj [
         ("success", VBool true);
         ("message", VStr "Image deleted successfully")]) |} in
  let failed :=
    {| Upload.statusCode := 500;
       Upload.body := Upload.Json (VObj [
         ("success", VBool false);
         ("error", VStr "Failed to delete image")]) |} in
  ((exists props, reqBody = VObj props /\ ~ In "url" (map fst props))
   \/ (exists url, getProp reqBody "url" = Returned url /\ truthy url = false)
   \/ (exists url, getProp reqBody "url" = Returned (VStr url)
                   /\ startsWith url "/api/uploads/" = false) ->
   Upload.deleteImage cwd reqBody w = (Returned acknowledged, w))
  /\ ((exists e, getProp reqBody "url" = Raised e)
      \/ (exists url, getProp reqBody "url" = Returned url
                      /\ (forall s, url <> VStr s) /\ truthy url = true) ->
      fst (Upload.deleteImage cwd reqBody w) = Returned failed
      /\ fsCalls (snd (Upload.deleteImage cwd reqBody w)) = fsCalls w
      /\ disk (snd (Upload.deleteImage cwd reqBody w)) = disk w)
  /\ (forall reqBody' w' target,
        Upload.deleteTarget cwd reqBody' = Some target ->
        disk w' !! target = Some File ->
        fst (Upload.deleteImage cwd reqBody' w') = Returned acknowledged
        /\ disk (snd (Upload.deleteImage cwd reqBody' w')) = delete target (disk w')).
Proof.
  cbv zeta. fold Upload.deleted.
  change {| Upload.statusCode := 500;
            Upload.body := Upload.Json (VObj [
              ("success", VBool false);
              ("error", VStr "Failed to delete image")]) |}
    with Upload.failedDelete.
  pose proof (deleteImage_cases cwd reqBody w) as C.
  split; [|split].
  - intros Hignored. revert C.
    unfold Upload.deleteTarget, Upload.deleteThrows.
    destruct Hignored as [(props & -> & Hno)|[(url & Hurl & Hfalsy)|(url & Hurl & Hpre)]].
    + cbn [getProp]. rewrite (lookupProp_absent _ _ Hno). trivial.
    + rewrite Hurl. destruct url as [| |b|n|s|l|l]; try discriminate Hfalsy;
        try rewrite Hfalsy; trivial.
      cbn [truthy value_truthy] in Hfalsy.
      change (truthy s) with (negb (String.eqb s "")) in *.
      rewrite Hfalsy. trivial.
    + rewrite Hurl, Hpre, andb_false_r. trivial.
  - intros Hbad. revert C.
    unfold Upload.deleteTarget, Upload.deleteThrows.
    destruct Hbad as [(e & He)|(url & Hurl & Hns & Htruthy)].
    + rewrite He. tauto.
    + rewrite Hurl. destruct url as [| |b|n|s|l|l];
        try (rewrite Htruthy; tauto); try discriminate Htruthy.
      now destruct (Hns s).
  - intros reqBody' w' target T F.
    pose proof (deleteImage_cases cwd reqBody' w') as C'.
    rewrite T, F in C'. destruct C' as (R & D & _). now split.
Qed.

Lemma deleteImage_ignored_witness :
  Upload.deleteImage ["srv"; "app"] (VObj [("id", VNum "7")]) sampleServer
  = (Returned {| Upload.statusCode := 200;
                 Upload.body := Upload.Json (VObj [
                   ("success", VBool true);
                   ("message", VStr "Image deleted successfully")]) |},
     sampleServer)
  /\ Upload.deleteImage ["srv"; "app"] (VObj [("url", VNull)]) sampleServer
     = (Returned {| Upload.statusCode := 200;
                    Upload.body := Upload.Json (VObj [
                      ("success", VBool true);
                      ("message", VStr "Image deleted successfully")]) |},
        sampleServer)
  /\ Upload.deleteImage ["srv"; "app"] (urlBody "/etc/passwd") sampleServer
     = (Returned {| Upload.statusCode := 200;
                    Upload.body := Upload.Json (VObj [
                      ("success", VBool true);
                      ("message", VStr "Image deleted successfully")]) |},
        sampleServer).
Proof.
  split; [|split].
  - apply (proj1 (deleteImage_ignored ["srv"; "app"] (VObj [("id", VNum "7")])
                    sampleServer)).
    left. exists [("id", VNum "7")]. split; [reflexivity|].
    cbn. intros [E|[]]. discriminate.
  - apply (proj1 (deleteImage_ignored ["srv"; "app"] (VObj [("url", VNull)])
                    sampleServer)).
    right. left. exists VNull. split; reflexivity.
  - apply (proj1 (deleteImage_ignored ["srv"; "app"] (urlBody "/etc/passwd")
                    sampleServer)).
    right. right. exists "/etc/passwd". split; reflexivity.
Defined.

(** C10 as stated fails for a [url] that is a number: it does not
    start with [/api/uploads/], no call to [fs] is made, and the
    answer is the 500, not the acknowledgment. *)
Lemma deleteImage_ignored_counterexample :
  let reqBody := VObj [("url", VNum "5")] in
  let out := Upload.deleteImage ["srv"; "app"] reqBody sampleServer in
  getProp reqBody "url" = Returned (VNum "5")
  /\ Upload.deleteTarget ["srv"; "app"] reqBody = None
  /\ out
     = (Returned {| Upload.statusCode := 500;
                    Upload.body := Upload.Json (VObj [
                      ("success", VBool false);
                      ("error", VStr "Failed to delete image")]) |},
        {| console := [{| level := LError; text := "Error deleting image:";
                          attached := Some (TypeError "url.startsWith is not a function") |}];
           network := []; disk := sampleDisk; fsCalls := [] |})
  /\ fst out
     <> Returned {| Upload.statusCode := 200;
                    Upload.body := Upload.Json (VObj [
                      ("success", VBool true);
                      ("message", VStr "Image deleted successfully")]) |}.
Proof. cbv zeta. repeat split; try reflexivity. discriminate. Qed.

(** ** Stored file names *)

Lemma noSlash_append (a b : string) :
  Path.noSlash (a +:+ b) = Path.noSlash a && Path.noSlash b.
Proof.
  unfold Path.noSlash. induction a as [|c a IH]; [reflexivity|].
  change (String c a +:+ b) with (String c (a +:+ b)).
  cbn [list_ascii_of_string forallb]. rewrite IH. now rewrite andb_assoc.
Qed.

Lemma digitChar_noSlash (d : Z) : 0 <= d <= 9 -> Path.isSlash (digitChar d) = false.
Proof.
  intros Hd.
  assert (d = 0 \/ d = 1 \/ d = 2 \/ d = 3 \/ d = 4 \/ d = 5 \/ d = 6
          \/ d = 7 \/ d = 8 \/ d = 9) as Hcases by lia.
  repeat (destruct Hcases as [-> | Hcases]; [reflexivity|]). now subst.
Qed.

Lemma digitsFuel_noSlash (fuel : nat) (n : Z) :
  0 <= n -> Path.noSlash (digitsFuel fuel n) = true.
Proof.
  revert n. induction fuel as [|fuel IH]; intros n Hn; [reflexivity|].
  cbn [digitsFuel]. destruct (n <? 10) eqn:E.
  - apply Z.ltb_lt in E. unfold Path.noSlash. cbn.
    rewrite digitChar_noSlash by lia. reflexivity.
  - rewrite noSlash_append, IH by (apply Z.div_pos; lia).
    unfold Path.noSlash. cbn.
    rewrite digitChar_noSlash; [reflexivity|].
    pose proof (Z.mod_pos_bound n 10). lia.
Qed.

Lemma showZ_noSlash (n : Z) : Path.noSlash (showZ n) = true.
Proof.
  unfold showZ. destruct (n <? 0) eqn:E.
  - apply Z.ltb_lt in E. rewrite noSlash_append, digitsFuel_noSlash by lia.
    reflexivity.
  - apply Z.ltb_ge in E. now apply digitsFuel_noSlash.
Qed.

Lemma noSlash_tail (c : ascii) (s : string) :
  Path.noSlash (String c s) = true -> Path.noSlash s = true.
Proof. unfold Path.noSlash. cbn. intros E. now apply andb_true_iff in E as [_ E]. Qed.

Lemma fromLastDot_noSlash (s e : string) :
  Path.fromLastDot s = Some e -> Path.noSlash s = true -> Path.noSlash e = true.
Proof.
  revert e. induction s as [|c s IH]; intros e; [discriminate|].
  cbn [Path.fromLastDot]. intros E N.
  destruct (Path.fromLastDot s) as [e'|].
  - injection E as <-. apply IH; [reflexivity | now apply noSlash_tail in N].
  - destruct (Ascii.eqb c "."); [now injection E as <- | discriminate].
Qed.

Lemma extname_noSlash (p : string) : Path.noSlash (Path.extname p) = true.
Proof.
  unfold Path.extname. pose proof (basename_noSlash p) as N.
  destruct (Path.basename p) as [|c rest]; [reflexivity|].
  destruct (Path.fromLastDot rest) as [e|] eqn:E; [|reflexivity].
  destruct (String.eqb (String c rest) ".."); [reflexivity|].
  apply (fromLastDot_noSlash rest e E). now apply noSlash_tail in N.
Qed.

(** A name made of a slash-free word, the two numbers and an
    extension holds no slash. *)
Lemma stored_name_noSlash (word : string) (now random : Z) (originalname : string) :
  Path.noSlash word = true ->
  Path.noSlash (word +:+ (showZ now +:+ "-" +:+ showZ random)
                +:+ Path.extname originalname) = true.
Proof.
  intros N. rewrite !noSlash_append, N, !showZ_noSlash, extname_noSlash.
  reflexivity.
Qed.

Lemma uploadsDir_eq (cwd : list string) :
  Upload.uploadsDir cwd = (Path.normalize cwd ++ ["uploads"])%list.
Proof.
  unfold Upload.uploadsDir, Path.join, Path.normalize.
  cbn [Path.splitSlash Path.isSlash]. rewrite fold_left_app. reflexivity.
Qed.

Lemma join_proper (base : list string) (name : string) :
  Forall (fun n => Path.plainName n = true) base ->
  Path.properName name = true ->
  Path.join base name = (base ++ [name])%list.
Proof.
  intros F P. unfold Path.properName in P. apply andb_true_iff in P as [P N].
  rewrite (join_one _ _ F N). now apply step_plain.
Qed.

Lemma storageFilename_parts
    (cwd : list string) (rq : Upload.UploadRequest) (file : Upload.FilePart) :
  Path.properName (Upload.storageFilename rq file) = true
  /\ Path.join (Upload.uploadsDir cwd) (Upload.storageFilename rq file)
     = (Upload.uploadsDir cwd ++ [Upload.storageFilename rq file])%list
  /\ Path.strictlyInside (Upload.uploadsDir cwd)
       (Path.join (Upload.uploadsDir cwd) (Upload.storageFilename rq file)).
Proof.
  assert (P : Path.properName (Upload.storageFilename rq file) = true).
  { unfold Path.properName, Upload.storageFilename. cbv zeta.
    rewrite stored_name_noSlash by reflexivity. reflexivity. }
  split; [exact P|].
  rewrite (join_proper _ _ (uploadsDir_plain cwd) P). split; [reflexivity|].
  exists [Upload.storageFilename rq file].
  split; [discriminate|]. split; [|reflexivity]. now repeat constructor.
Qed.

(** ** [POST /api/upload/image] *)

Lemma startsWith_truthy (s pre : string) :
  pre <> "" -> startsWith s pre = true -> truthy s = true.
Proof.
  intros Hpre E. destruct s; [|reflexivity].
  destruct pre; [contradiction | discriminate E].
Qed.

Lemma finalHandler_unstructured (e : JsError) :
  ~ Upload.structuredClientError (Upload.finalHandler e).
Proof. intros [[_ H] _]. cbn in H. lia. Qed.

(** A size busboy does not cut: below the limit on 1.x, up to it
    on 0.x. *)
Lemma exceeds_false (limitAtEqual : bool) (size : Z) :
  Upload.exceeds limitAtEqual size = false
  <-> (if limitAtEqual then size < 5 * 1024 * 1024 else size <= 5 * 1024 * 1024).
Proof.
  unfold Upload.exceeds, Upload.fileSize.
  destruct limitAtEqual; [apply Z.leb_gt | apply Z.ltb_ge].
Qed.

Section PostUploadImage.
Variable cwd : list string.
Variable limitAtEqual : bool.
Variable rq : Upload.UploadRequest.

(** Once the slot is used, the parts change nothing until one with a
    file name aborts the request. *)
Lemma receiveFiles_no_slot (parts : list Upload.FilePart) :
  forall uploadedFiles reqFile w,
    Upload.receiveFiles cwd limitAtEqual rq 0 uploadedFiles reqFile parts w
    = match List.filter (fun file => truthy (Upload.originalname file)) parts with
      | [] => (Returned (Upload.NextOk reqFile), w)
      | _ :: _ =>
          Upload.abortWithError cwd uploadedFiles
            (MulterError "LIMIT_UNEXPECTED_FILE") w
      end.
Proof.
  induction parts as [|file rest IH]; intros uploadedFiles reqFile w; [reflexivity|].
  cbn [Upload.receiveFiles List.filter].
  destruct (truthy (Upload.originalname file)); cbn [negb]; [|apply IH].
  change (0 <=? 0) with true. rewrite orb_true_r. reflexivity.
Qed.

(** Removing the file that was just written. *)
Lemma unlink_written (p : list string) (w : World) :
  unlink p (onDisk (insert p File) w) = (Returned tt, onDisk (delete p) w).
Proof.
  unfold unlink, onDisk. reduce. rewrite lookup_insert_eq.
  reduce. now rewrite delete_insert_eq.
Qed.

(** The middleware on the parts of a request, by the first part that
    carries a file name and whether others follow it. *)
Lemma receiveFiles_cases (parts : list Upload.FilePart) (w : World) :
  Upload.receiveFiles cwd limitAtEqual rq 1 [] None parts w
  = match List.filter (fun file => truthy (Upload.originalname file)) parts with
    | [] => (Returned (Upload.NextOk None), w)
    | file :: others =>
        let name := Upload.storageFilename rq file in
        let p := (Upload.uploadsDir cwd ++ [name])%list in
        let stored := {| Upload.part := file; Upload.filename := name |} in
        if negb (String.eqb (Upload.fieldname file) "image") then
          (Returned (Upload.NextErr (MulterError "LIMIT_UNEXPECTED_FILE")), w)
        else if startsWith (Upload.mimetype file) "image/" then
          match disk w !! Upload.uploadsDir cwd with
          | Some Dir =>
              match disk w !! p with
              | Some Dir =>
                  (Returned (Upload.NextErr
                     (Error "EISDIR: illegal operation on a directory, open")), w)
              | _ =>
                  if Upload.exceeds limitAtEqual (Upload.size file) then
                    (Returned (Upload.NextErr (MulterError "LIMIT_FILE_SIZE")),
                     onDisk (delete p) w)
                  else
                    match others with
                    | [] => (Returned (Upload.NextOk (Some stored)),
                             onDisk (insert p File) w)
                    | _ :: _ =>
                        (Returned (Upload.NextErr
                           (MulterError "LIMIT_UNEXPECTED_FILE")),
                         onDisk (delete p) w)
                    end
              end
          | Some File =>
              (Returned (Upload.NextErr (Error "ENOTDIR: not a directory, open")), w)
          | None =>
              (Returned (Upload.NextErr
                 (Error "ENOENT: no such file or directory, open")), w)
          end
        else
          let w1 := logged w LWarn
                      ("❌ Rejected file upload: " +:+ Upload.originalname file
                       +:+ " ("
                       +:+ (if truthy (Upload.mimetype file)
                            then Upload.mimetype file else "no mimetype")
                       +:+ ")") None in
          match others with
          | [] => (Returned (Upload.NextOk None), w1)
          | _ :: _ =>
              (Returned (Upload.NextErr (MulterError "LIMIT_UNEXPECTED_FILE")), w1)
          end
    end.
Proof.
  cbv zeta. induction parts as [|file rest IH]; [reflexivity|].
  cbn [Upload.receiveFiles List.filter].
  destruct (truthy (Upload.originalname file)) eqn:Hname; cbn [negb]; [|exact IH].
  clear IH.
  destruct (String.eqb (Upload.fieldname file) "image"); cbn [negb orb];
    [|destruct w; reflexivity].
  change (1 <=? 0) with false. change (1 - 1) with 0. cbv iota.
  destruct (storageFilename_parts cwd rq file) as (_ & J & _).
  unfold Upload.fileFilter.
  destruct (startsWith (Upload.mimetype file) "image/") eqn:Hmime.
  - rewrite (startsWith_truthy _ "image/") by (discriminate || assumption).
    cbn [andb]. unfold bind at 1. unfold ret at 1. cbn [negb]. cbv zeta.
    unfold bind at 1. unfold createWriteStream.
    rewrite J, removelast_last.
    destruct (disk w !! Upload.uploadsDir cwd) as [[|]|];
      [destruct w; reflexivity| |destruct w; reflexivity].
    set (p := (Upload.uploadsDir cwd ++ [Upload.storageFilename rq file])%list).
    assert (Hwritten :
      (if Upload.exceeds limitAtEqual (Upload.size file)
       then Upload.abortWithError cwd
              ([] ++ [{| Upload.part := file;
                         Upload.filename := Upload.storageFilename rq file |}])
              (MulterError "LIMIT_FILE_SIZE")
       else Upload.receiveFiles cwd limitAtEqual rq 0
              ([] ++ [{| Upload.part := file;
                         Upload.filename := Upload.storageFilename rq file |}])
              (Some {| Upload.part := file;
                       Upload.filename := Upload.storageFilename rq file |}) rest)
        (onDisk (insert p File) w)
      = if Upload.exceeds limitAtEqual (Upload.size file) then
          (Returned (Upload.NextErr (MulterError "LIMIT_FILE_SIZE")),
           onDisk (delete p) w)
        else
          match List.filter (fun file => truthy (Upload.originalname file)) rest with
          | [] => (Returned (Upload.NextOk
                     (Some {| Upload.part := file;
                              Upload.filename := Upload.storageFilename rq file |})),
                   onDisk (insert p File) w)
          | _ :: _ => (Returned (Upload.NextErr (MulterError "LIMIT_UNEXPECTED_FILE")),
                       onDisk (delete p) w)
          end).
    { assert (Habort : forall e,
        Upload.abortWithError cwd
          ([] ++ [{| Upload.part := file;
                     Upload.filename := Upload.storageFilename rq file |}]) e
          (onDisk (insert p File) w)
        = (Returned (Upload.NextErr e), onDisk (delete p) w)).
      { intros e. unfold Upload.abortWithError.
        cbn [app Upload.removeUploadedFiles Upload.filename].
        rewrite J. fold p. unfold bind. rewrite unlink_written. reflexivity. }
      destruct (Upload.exceeds limitAtEqual (Upload.size file)); [apply Habort|].
      rewrite receiveFiles_no_slot.
      destruct (List.filter _ rest); [reflexivity | apply Habort]. }
    destruct (disk w !! p) as [[|]|] eqn:E; reduce;
      [exact Hwritten | destruct w; reflexivity | exact Hwritten].
  - rewrite andb_false_r. rewrite Hname.
    unfold bind at 1. unfold console_warn, emit. reduce.
    unfold bind at 1. unfold ret at 1. cbn [negb].
    rewrite receiveFiles_no_slot.
    destruct (List.filter _ rest); reflexivity.
Qed.

(** The route, case by case: the answer and the world it leaves. *)
Lemma postUploadImage_cases (w : World) :
  Upload.postUploadImage cwd limitAtEqual rq w
  = match named rq with
    | [] =>
        (Returned noImage,
         logged w LWarn "❌ Upload rejected: No valid image file provided" None)
    | file :: others =>
        let name := Upload.storageFilename rq file in
        let p := (Upload.uploadsDir cwd ++ [name])%list in
        if negb (String.eqb (Upload.fieldname file) "image") then
          (Returned errorPage, w)
        else if startsWith (Upload.mimetype file) "image/" then
          match disk w !! Upload.uploadsDir cwd with
          | Some Dir =>
              match disk w !! p with
              | Some Dir => (Returned errorPage, w)
              | _ =>
                  if Upload.exceeds limitAtEqual (Upload.size file) then
                    (Returned errorPage, onDisk (delete p) w)
                  else
                    match others with
                    | [] =>
                        (Returned (uploaded file name),
                         logged (onDisk (insert p File) w) LLog
                           ("✅ Image upload successful: "
                            +:+ Upload.originalname file +:+ " -> " +:+ name)
                           None)
                    | _ :: _ => (Returned errorPage, onDisk (delete p) w)
                    end
              end
          | _ => (Returned errorPage, w)
          end
        else
          let w1 := logged w LWarn
                      ("❌ Rejected file upload: " +:+ Upload.originalname file
                       +:+ " ("
                       +:+ (if truthy (Upload.mimetype file)
                            then Upload.mimetype file else "no mimetype")
                       +:+ ")") None in
          match others with
          | [] =>
              (Returned noImage,
               logged w1 LWarn
                 "❌ Upload rejected: No valid image file provided" None)
          | _ :: _ => (Returned errorPage, w1)
          end
    end.
Proof.
  cbv zeta. unfold Upload.postUploadImage, Upload.uploadMiddleware, named.
  unfold bind at 1. rewrite receiveFiles_cases. cbv zeta.
  destruct (List.filter _ (Upload.files rq)) as [|file others]; [reflexivity|].
  destruct (negb (String.eqb (Upload.fieldname file) "image")); [reflexivity|].
  destruct (startsWith (Upload.mimetype file) "image/") eqn:Hmime.
  - destruct (disk w !! Upload.uploadsDir cwd) as [[|]|]; try reflexivity.
    assert (Hstored :
      Upload.uploadImage
        (Some {| Upload.part := file;
                 Upload.filename := Upload.storageFilename rq file |})
        (onDisk (insert (Upload.uploadsDir cwd ++ [Upload.storageFilename rq file])%list
                   File) w)
      = (Returned (uploaded file (Upload.storageFilename rq file)),
         logged (onDisk (insert (Upload.uploadsDir cwd
                                 ++ [Upload.storageFilename rq file])%list File) w)
           LLog ("✅ Image upload successful: " +:+ Upload.originalname file
                 +:+ " -> " +:+ Upload.storageFilename rq file) None)).
    { unfold Upload.uploadImage. cbn [Upload.part Upload.filename].
      rewrite Hmime. reflexivity. }
    destruct (disk w !! (Upload.uploadsDir cwd ++ [Upload.storageFilename rq file])%list)
      as [[|]|]; try reflexivity;
      (destruct (Upload.exceeds limitAtEqual (Upload.size file)); [reflexivity|];
       destruct others; [exact Hstored | reflexivity]).
  - destruct others; reflexivity.
Qed.
End PostUploadImage.

(** C6 (what the code does).  A 6 MB PNG sent as the [image] field is
    answered with status 500 and an HTML page, not with a 4xx and the
    [{success: false, error}] body: multer's size error goes to
    [next(err)], and no handler of this server takes it up.  This is
    so on every disk and with either busboy (where the file cannot be
    written, the error of the write takes the same way); nothing is
    logged, and what was written of the file is removed again, so
    that a disk on which the name was free is left as it was. *)
Theorem upload_oversized_image (cwd : list string) (limitAtEqual : bool) (w : World) :
  let stored :=
    Path.join (Upload.uploadsDir cwd) "image-1704067200000-123456789.png" in
  Upload.postUploadImage cwd limitAtEqual bigPng w
  = (Returned {| Upload.statusCode := 500;
                 Upload.body := Upload.Html "Internal Server Error" |},
     {| console := console w; network := network w;
        disk := match disk w !! Upload.uploadsDir cwd, disk w !! stored with
                | Some Dir, Some Dir => disk w
                | Some Dir, _ => delete stored (disk w)
                | _, _ => disk w
                end;
        fsCalls := fsCalls w |})
  /\ (disk w !! stored = None ->
      Upload.postUploadImage cwd limitAtEqual bigPng w
      = (Returned {| Upload.statusCode := 500;
                     Upload.body := Upload.Html "Internal Server Error" |}, w))
  /\ ~ Upload.structuredClientError
         {| Upload.statusCode := 500;
            Upload.body := Upload.Html "Internal Server Error" |}.
Proof.
  intros stored.
  assert (J : stored
              = (Upload.uploadsDir cwd ++ ["image-1704067200000-123456789.png"])%list)
    by (apply join_proper; [apply uploadsDir_plain | reflexivity]).
  assert (E : Upload.postUploadImage cwd limitAtEqual bigPng w
    = (Returned {| Upload.statusCode := 500;
                   Upload.body := Upload.Html "Internal Server Error" |},
       {| console := console w; network := network w;
          disk := match disk w !! Upload.uploadsDir cwd, disk w !! stored with
                  | Some Dir, Some Dir => disk w
                  | Some Dir, _ => delete stored (disk w)
                  | _, _ => disk w
                  end;
          fsCalls := fsCalls w |})).
  { rewrite postUploadImage_cases.
    change (named bigPng)
      with [{| Upload.fieldname := "image"; Upload.originalname := "big.png";
               Upload.mimetype := "image/png"; Upload.size := 6 * 1024 * 1024 |}].
    cbv beta iota zeta.
    assert (N : Upload.storageFilename bigPng
                  {| Upload.fieldname := "image"; Upload.originalname := "big.png";
                     Upload.mimetype := "image/png"; Upload.size := 6 * 1024 * 1024 |}
                = "image-1704067200000-123456789.png") by (vm_compute; reflexivity).
    rewrite N, <- J.
    assert (Hbig : Upload.exceeds limitAtEqual (6 * 1024 * 1024) = true)
      by (destruct limitAtEqual; reflexivity).
    cbn [Upload.fieldname Upload.mimetype Upload.size String.eqb negb].
    change (startsWith "image/png" "image/") with true. cbv iota.
    rewrite Hbig.
    destruct (disk w !! Upload.uploadsDir cwd) as [[|]|];
      [destruct w; reflexivity | | destruct w; reflexivity].
    destruct (disk w !! stored) as [[|]|]; try reflexivity.
    destruct w; reflexivity. }
  split; [exact E|]. split.
  - intros Hfree. rewrite E, Hfree.
    destruct (disk w !! Upload.uploadsDir cwd) as [[|]|];
      try (destruct w; reflexivity).
    rewrite delete_id by exact Hfree. destruct w; reflexivity.
  - apply (finalHandler_unstructured (MulterError "LIMIT_FILE_SIZE")).
Qed.

(** The other two parts of the claim: an image within the limit is
    stored and its URL returned; a part that is not an image is
    refused with the 400 and nothing is written. *)
Example upload_small_png :
  Upload.postUploadImage ["srv"; "app"] true
    {| Upload.files := [{| Upload.fieldname := "image";
                           Upload.originalname := "cat.photo.png";
                           Upload.mimetype := "image/png";
                           Upload.size := 2048 |}];
       Upload.now := 1704067200000; Upload.random := 42 |}
    sampleServer
  = (Returned {| Upload.statusCode := 200;
                 Upload.body := Upload.Json (VObj [
                   ("success", VBool true);
                   ("data", VObj [
                      ("url", VStr "/api/uploads/image-1704067200000-42.png");
                      ("filename", VStr "cat.photo.png");
                      ("size", VNum "2048");
                      ("mimetype", VStr "image/png")])]) |},
     {| console := [{| level := LLog;
                       text := "✅ Image upload successful: cat.photo.png -> image-1704067200000-42.png";
                       attached := None |}];
        network := [];
        disk := <[ ["srv"; "app"; "uploads"; "image-1704067200000-42.png"] := File ]>
                sampleDisk;
        fsCalls := [] |}).
Proof. reflexivity. Qed.

Example upload_text_file :
  Upload.postUploadImage ["srv"; "app"] true
    {| Upload.files := [{| Upload.fieldname := "image";
                           Upload.originalname := "notes.txt";
                           Upload.mimetype := "text/plain";
                           Upload.size := 10 |}];
       Upload.now := 1704067200000; Upload.random := 42 |}
    sampleServer
  = (Returned {| Upload.statusCode := 400;
                 Upload.body := Upload.Json (VObj [
                   ("success", VBool false);
                   ("error", VStr "No valid image file provided. Please upload a valid image file (PNG, JPG, GIF, etc.)")]) |},
     {| console := [{| level := LWarn;
                       text := "❌ Rejected file upload: notes.txt (text/plain)";
                       attached := None |};
                    {| level := LWarn;
                       text := "❌ Upload rejected: No valid image file provided";
                       attached := None |}];
        network := []; disk := sampleDisk; fsCalls := [] |}).
Proof. reflexivity. Qed.

(** A file of exactly 5 MB: refused on busboy 1.x, stored on 0.x. *)
Example upload_at_the_limit :
  let edge := {| Upload.fieldname := "image"; Upload.originalname := "edge.png";
                 Upload.mimetype := "image/png"; Upload.size := 5242880 |} in
  let rq := {| Upload.files := [edge];
               Upload.now := 1704067200000; Upload.random := 42 |} in
  Upload.postUploadImage ["srv"; "app"] true rq sampleServer
  = (Returned errorPage, sampleServer)
  /\ fst (Upload.postUploadImage ["srv"; "app"] false rq sampleServer)
     = Returned (uploaded edge "image-1704067200000-42.png").
Proof. split; reflexivity. Qed.

(** Two files in one request: the first is stored, then removed. *)
Example upload_two_files :
  Upload.postUploadImage ["srv"; "app"] true
    {| Upload.files := [catPng; catPng];
       Upload.now := 1704067200000; Upload.random := 42 |}
    sampleServer
  = (Returned errorPage, sampleServer).
Proof. reflexivity. Qed.

(** The uploads path is a regular file: the write fails. *)
Example upload_no_directory :
  Upload.postUploadImage ["srv"; "app"] true
    {| Upload.files := [catPng];
       Upload.now := 1704067200000; Upload.random := 42 |}
    brokenServer
  = (Returned errorPage, brokenServer).
Proof. reflexivity. Qed.

(** * Further properties of the code *)

(** ** The direct-mode client: requests and console *)

(** What [appendToSheet] does to the network and the disk. *)
Lemma appendToSheet_effects
    (config : GoogleSheetsConfig) (fetch : Fetch)
    (sheetName : string) (values : list (list string)) (w : World) :
  let w' := snd (Direct.appendToSheet config fetch sheetName values w) in
  network w' = (network w ++
                if Direct.isConfigured config
                then [Direct.appendRequest config sheetName values] else [])%list
  /\ disk w' = disk w /\ fsCalls w' = fsCalls w.
Proof.
  unfold Direct.appendToSheet.
  destruct (Direct.isConfigured config); cbn [negb]; run.
  - destruct (fetch _) as [e|r]; [repeat split|].
    destruct (ok r); cbn [negb]; [repeat split|].
    destruct (payload r) as [v|]; destruct (status r =? 401); try (repeat split; fail);
      destruct (Direct.errorMessage v); repeat split.
  - rewrite app_nil_r. repeat split.
Qed.

(** X1.  A submission whose timestamp is not a valid date makes each
    of the five direct-mode sync methods raise the [RangeError] of
    [toISOString], before anything is sent or logged. *)
Theorem direct_sync_invalid_timestamp `{Host}
    (config : GoogleSheetsConfig) (fetch : Fetch) (w : World) :
  let invalid := (Raised (RangeError "Invalid time value"), w) in
  (forall c, JsDate.newDate (Contact.created_at c) = None ->
     Direct.syncContact config fetch c w = invalid)
  /\ (forall a, JsDate.newDate (JobApplication.created_at a) = None ->
        Direct.syncJobApplication config fetch a w = invalid)
  /\ (forall r, JsDate.newDate (GetStartedRequest.created_at r) = None ->
        Direct.syncGetStartedRequest config fetch r w = invalid)
  /\ (forall u, JsDate.newDate (ResumeUpload.created_at u) = None ->
        Direct.syncResumeUpload config fetch u w = invalid)
  /\ (forall n, JsDate.newDate (NewsletterSubscription.subscribed_at n) = None ->
        Direct.syncNewsletterSubscription config fetch n w = invalid).
Proof.
  intros invalid. repeat split; intros x E;
    unfold Direct.syncContact, Direct.syncJobApplication,
      Direct.syncGetStartedRequest, Direct.syncResumeUpload,
      Direct.syncNewsletterSubscription,
      Rows.contactValues, Rows.jobApplicationValues,
      Rows.getStartedRequestValues, Rows.resumeUploadValues,
      Rows.newsletterSubscriptionValues;
    rewrite (withTimestamp_invalid _ _ E); reflexivity.
Qed.

Lemma direct_sync_invalid_timestamp_witness :
  @Direct.syncNewsletterSubscription strictHost
    {| spreadsheetId := "sheet-1"; apiKey := "key-1" |}
    (fun _ => FetchResponse {| status := 200; payload := None |})
    {| NewsletterSubscription.email := "a@x.com";
       NewsletterSubscription.subscribed_at := "yesterday" |}
    emptyWorld
  = (Raised (RangeError "Invalid time value"), emptyWorld).
Proof.
  apply (proj2 (proj2 (proj2 (proj2
           (@direct_sync_invalid_timestamp strictHost
              {| spreadsheetId := "sheet-1"; apiKey := "key-1" |}
              (fun _ => FetchResponse {| status := 200; payload := None |})
              emptyWorld))))).
  reflexivity.
Defined.

(** One sync method on a valid timestamp: the boolean it returns and
    the single request it may send. *)
Lemma direct_sync_run
    (config : GoogleSheetsConfig) (fetch : Fetch) (sheet : string)
    (built : Completion (list (list string))) (values : list (list string))
    (w : World) :
  built = Returned values ->
  let rq := Direct.appendRequest config sheet values in
  let out := (v <- lift built ;; Direct.appendToSheet config fetch sheet v) w in
  fst out = Returned (Direct.isConfigured config && succeeded (fetch rq))
  /\ network (snd out)
     = (network w ++ if Direct.isConfigured config then [rq] else [])%list.
Proof.
  intros -> rq out. subst out. rewrite (sync_after_values _ _ values eq_refl).
  split; [apply appendToSheet_returns | apply appendToSheet_effects].
Qed.

(** X2.  On a submission with a valid timestamp each direct-mode sync
    method returns a boolean ([true] exactly when the client is
    configured and the response is successful) and sends at most one
    request: none when not configured, otherwise one append of its
    single row to its own tab. *)
Theorem direct_sync_one_request `{Host}
    (config : GoogleSheetsConfig) (fetch : Fetch) (w : World) :
  let outcome (sheet : string) (values : list (list string))
              (out : Completion bool * World) :=
    let rq := Direct.appendRequest config sheet values in
    (exists row, values = [row])
    /\ fst out = Returned (Direct.isConfigured config && succeeded (fetch rq))
    /\ network (snd out)
       = (network w ++ if Direct.isConfigured config then [rq] else [])%list in
  (forall c t, JsDate.newDate (Contact.created_at c) = Some t ->
     exists values, Rows.contactValues c = Returned values
       /\ outcome "Contacts" values (Direct.syncContact config fetch c w))
  /\ (forall a t, JsDate.newDate (JobApplication.created_at a) = Some t ->
        exists values, Rows.jobApplicationValues a = Returned values
          /\ outcome "Job Applications" values
               (Direct.syncJobApplication config fetch a w))
  /\ (forall r t, JsDate.newDate (GetStartedRequest.created_at r) = Some t ->
        exists values, Rows.getStartedRequestValues r = Returned values
          /\ outcome "Get Started Requests" values
               (Direct.syncGetStartedRequest config fetch r w))
  /\ (forall u t, JsDate.newDate (ResumeUpload.created_at u) = Some t ->
        exists values, Rows.resumeUploadValues u = Returned values
          /\ outcome "Resume Uploads" values
               (Direct.syncResumeUpload config fetch u w))
  /\ (forall n t, JsDate.newDate (NewsletterSubscription.subscribed_at n) = Some t ->
        exists values, Rows.newsletterSubscriptionValues n = Returned values
          /\ outcome "Newsletter Subscribers" values
               (Direct.syncNewsletterSubscription config fetch n w)).
Proof.
  intros outcome. subst outcome. cbv beta.
  repeat split; intros x t Ht; eexists;
    (split; [apply (withTimestamp_valid _ _ t Ht)|]);
    (split; [eexists; reflexivity|]);
    refine (direct_sync_run config fetch _ _ _ w _);
    apply (withTimestamp_valid _ _ t Ht).
Qed.

Lemma direct_sync_one_request_witness :
  let config := {| spreadsheetId := "sheet-1"; apiKey := "key-1" |} in
  let fetch : Fetch := fun _ => FetchResponse {| status := 503; payload := None |} in
  let out := @Direct.syncContact strictHost config fetch sampleContact emptyWorld in
  exists values,
    @Rows.contactValues strictHost sampleContact = Returned values
    /\ (exists row, values = [row])
    /\ fst out
       = Returned (Direct.isConfigured config
                   && succeeded (fetch (Direct.appendRequest config "Contacts" values)))
    /\ network (snd out)
       = (network emptyWorld ++
          if Direct.isConfigured config
          then [Direct.appendRequest config "Contacts" values] else [])%list.
Proof.
  intros config fetch out.
  apply (proj1 (@direct_sync_one_request strictHost config fetch emptyWorld)
           sampleContact 1704067200000).
  reflexivity.
Defined.

(** X3.  [appendToSheet] never retries and never touches the disk:
    when configured it sends exactly one request whatever comes back
    (success, any error status, a failed fetch), when not configured
    none; and every call leaves one or two lines on the console. *)
Theorem appendToSheet_single_attempt
    (config : GoogleSheetsConfig) (fetch : Fetch)
    (sheetName : string) (values : list (list string)) (w : World) :
  let w' := snd (Direct.appendToSheet config fetch sheetName values w) in
  network w' = (network w ++
                if Direct.isConfigured config
                then [Direct.appendRequest config sheetName values] else [])%list
  /\ disk w' = disk w /\ fsCalls w' = fsCalls w
  /\ exists lines, console w' = (console w ++ lines)%list
                   /\ (1 <= List.length lines <= 2)%nat.
Proof.
  intros w'. destruct (appendToSheet_effects config fetch sheetName values w)
    as (N & D & F). fold w' in N, D, F.
  split; [exact N|]. split; [exact D|]. split; [exact F|].
  subst w'. clear. unfold Direct.appendToSheet.
  destruct (Direct.isConfigured config); cbn [negb]; run.
  - destruct (fetch _) as [e|r]; [eexists; split; [reflexivity | cbn; lia]|].
    destruct (ok r); cbn [negb]; [eexists; split; [reflexivity | cbn; lia]|].
    destruct (payload r) as [v|]; destruct (status r =? 401); reduce;
      try (destruct (Direct.errorMessage v); reduce);
      try (eexists; split; [reflexivity | cbn; lia]);
      (exists [ {| level := LWarn;
                   text := "⚠️ Google Sheets API Key cannot write data. Read-only access available.";
                   attached := None |};
                {| level := LWarn;
                   text := "💡 For write access, configure OAuth2 or service account authentication.";
                   attached := None |} ];
       split; [now rewrite <- app_assoc | cbn; lia]).
  - eexists; split; [reflexivity | cbn; lia].
Qed.

(** X4.  The error line after an unsuccessful status other than 401
    carries the status and the server's message: [error.message] of
    the JSON body when that is a non-empty string, and "Unknown
    error" when the body is not JSON at all. *)
Theorem appendToSheet_error_message
    (config : GoogleSheetsConfig) (fetch : Fetch)
    (sheetName : string) (values : list (list string)) (w : World)
    (r : HttpResponse) :
  Direct.isConfigured config = true ->
  fetch (Direct.appendRequest config sheetName values) = FetchResponse r ->
  ok r = false -> status r <> 401 ->
  let failure (detail : string) :=
    (Returned false,
     logged (requested w (Direct.appendRequest config sheetName values)) LError
       "❌ Error syncing to Google Sheets:"
       (Some (Error ("Google Sheets API error: " +:+ showZ (status r)
                     +:+ " - " +:+ detail)))) in
  (payload r = None ->
   Direct.appendToSheet config fetch sheetName values w = failure "Unknown error")
  /\ (forall props details message,
        payload r = Some (VObj props) ->
        lookupProp "error" props = VObj details ->
        lookupProp "message" details = VStr message -> message <> "" ->
        Direct.appendToSheet config fetch sheetName values w = failure message).
Proof.
  intros Hconf Hr Hok Hne failure. subst failure. cbv beta.
  apply Z.eqb_neq in Hne.
  unfold Direct.appendToSheet. rewrite Hconf. cbn [negb]. run.
  rewrite Hr, Hok. cbn [negb]. split.
  - intros ->. rewrite Hne. reflexivity.
  - intros props details message -> Herr Hmsg Hnonempty. rewrite Hne.
    unfold Direct.errorMessage, getPropOpt. cbn [getProp].
    rewrite Herr. cbn [getProp]. rewrite Hmsg.
    cbn [truthy value_truthy toStr].
    apply truthy_string in Hnonempty. rewrite Hnonempty. reflexivity.
Qed.

Lemma appendToSheet_error_message_witness :
  let config := {| spreadsheetId := "sheet-1"; apiKey := "key-1" |} in
  let r := {| status := 403;
              payload := Some (VObj [("error", VObj [("code", VNum "403");
                                                     ("message", VStr "denied")])]) |} in
  Direct.appendToSheet config (fun _ => FetchResponse r) "Contacts" [["a"]] emptyWorld
  = (Returned false,
     logged (requested emptyWorld (Direct.appendRequest config "Contacts" [["a"]])) LError
       "❌ Error syncing to Google Sheets:"
       (Some (Error ("Google Sheets API error: " +:+ showZ (status r)
                     +:+ " - " +:+ "denied")))).
Proof.
  intros config r.
  refine (proj2 (appendToSheet_error_message config (fun _ => FetchResponse r)
                   "Contacts" [["a"]] emptyWorld r _ _ _ _)
            [("error", VObj [("code", VNum "403"); ("message", VStr "denied")])]
            [("code", VNum "403"); ("message", VStr "denied")] "denied" _ _ _ _).
  - reflexivity.
  - reflexivity.
  - reflexivity.
  - discriminate.
  - reflexivity.
  - reflexivity.
  - reflexivity.
  - discriminate.
Defined.

(** X5.  Direct-mode [initializeSheets] only writes one console line:
    the warning when the spreadsheet identifier or the API key is
    empty, the readiness line otherwise.  It sends nothing and never
    raises. *)
Theorem direct_initializeSheets_console (config : GoogleSheetsConfig) (w : World) :
  (spreadsheetId config = "" \/ apiKey config = "" ->
   Direct.initializeSheets config w
   = (Returned tt,
      logged w LWarn "Google Sheets not configured. Skipping initialization." None))
  /\ (spreadsheetId config <> "" /\ apiKey config <> "" ->
      Direct.initializeSheets config w
      = (Returned tt, logged w LLog "Google Sheets service initialized" None)).
Proof.
  rewrite direct_initializeSheets. split.
  - intros E. apply isConfigured_false_iff in E. now rewrite E.
  - intros E. apply isConfigured_iff in E. now rewrite E.
Qed.

Lemma direct_initializeSheets_console_witness :
  Direct.initializeSheets {| spreadsheetId := ""; apiKey := "key-1" |} emptyWorld
  = (Returned tt,
     logged emptyWorld LWarn "Google Sheets not configured. Skipping initialization." None).
Proof.
  apply (proj1 (direct_initializeSheets_console
                  {| spreadsheetId := ""; apiKey := "key-1" |} emptyWorld)).
  left. reflexivity.
Defined.

(** ** [withGoogleSheetsSync]: the primary operation and the background *)

Lemma withGoogleSheetsSync_background_witness :
  let sync : Promise bool := {| resume := throw (Error "offline") |} in
  exists background,
    withGoogleSheetsSync (asyncCall (ret 42)) (ret sync) emptyWorld
    = (Returned (42, background), emptyWorld)
    /\ (forall w', fst (resume background w') = Returned tt)
    /\ (forall w' e w'',
          resume sync w' = (Raised e, w'') ->
          resume background w'
          = (Returned tt,
             logged w'' LError "Background Google Sheets sync failed:" (Some e)))
    /\ (forall w' b w'',
          resume sync w' = (Returned b, w'') ->
          resume background w' = (Returned tt, w'')).
Proof.
  intros sync.
  apply (withGoogleSheetsSync_background
           (asyncCall (ret 42)) (ret sync)
           emptyWorld emptyWorld emptyWorld emptyWorld
           {| resume := ret 42 |} 42 sync).
  - reflexivity.
  - reflexivity.
  - reflexivity.
Defined.

(** X7.  When the primary operation fails, by throwing when called or
    by a rejected promise, [withGoogleSheetsSync] raises that very
    error and leaves the world as the primary operation left it: the
    sync operation, whatever it is, is never started. *)
Theorem withGoogleSheetsSync_primary_fails {T}
    (supabaseOperation : M (Promise T)) (w w1 : World) (e : JsError) :
  (supabaseOperation w = (Raised e, w1) ->
   forall syncOperation,
     withGoogleSheetsSync supabaseOperation syncOperation w = (Raised e, w1))
  /\ (forall started w2,
        supabaseOperation w = (Returned started, w1) ->
        resume started w1 = (Raised e, w2) ->
        forall syncOperation,
          withGoogleSheetsSync supabaseOperation syncOperation w = (Raised e, w2)).
Proof.
  split.
  - intros H1 syncOperation. unfold withGoogleSheetsSync. run. now rewrite H1.
  - intros started w2 H1 H2 syncOperation. unfold withGoogleSheetsSync. run.
    now rewrite H1, H2.
Qed.

Lemma withGoogleSheetsSync_primary_fails_witness :
  withGoogleSheetsSync (T := Z) (asyncCall (throw (Error "insert failed")))
    (console_log "sync started" ;;; asyncCall (ret true)) emptyWorld
  = (Raised (Error "insert failed"), emptyWorld).
Proof.
  apply (proj2 (withGoogleSheetsSync_primary_fails (T := Z)
                  (asyncCall (throw (Error "insert failed")))
                  emptyWorld emptyWorld (Error "insert failed"))
           {| resume := throw (Error "insert failed") |} emptyWorld).
  - reflexivity.
  - reflexivity.
Defined.

(** X8.  [withGoogleSheetsSync] around an async call of direct-mode
    [syncContact]: the primary result comes back, and the promise left
    behind never rejects.  With a valid timestamp the handler of the
    combinator stays silent, since a failed delivery is already turned
    into [false] (and logged) inside [appendToSheet]; with an invalid
    one it logs the [RangeError]. *)
Theorem withGoogleSheetsSync_syncContact `{Host} {T}
    (config : GoogleSheetsConfig) (fetch : Fetch) (c : Contact.t)
    (supabaseOperation : M (Promise T)) (w w1 w2 : World)
    (started : Promise T) (result : T) :
  supabaseOperation w = (Returned started, w1) ->
  resume started w1 = (Returned result, w2) ->
  exists background,
    fst (withGoogleSheetsSync supabaseOperation
           (asyncCall (Direct.syncContact config fetch c)) w)
    = Returned (result, background)
    /\ (forall w', fst (resume background w') = Returned tt)
    /\ (forall t w', JsDate.newDate (Contact.created_at c) = Some t ->
          snd (resume background w')
          = snd (Direct.syncContact config fetch c w'))
    /\ (forall w', JsDate.newDate (Contact.created_at c) = None ->
          snd (resume background w')
          = logged w' LError "Background Google Sheets sync failed:"
              (Some (RangeError "Invalid time value"))).
Proof.
  intros H1 H2. eexists. unfold withGoogleSheetsSync, asyncCall. run.
  rewrite H1, H2. split; [reflexivity|].
  unfold promiseCatch. cbn [resume]. run. repeat split.
  - intros w'. destruct (Direct.syncContact config fetch c w') as [[b|e] w''];
      reflexivity.
  - intros t w' Ht.
    pose proof (appendToSheet_returns config fetch (contacts sheetNames)
                  [[ JsDate.isoString t; Contact.name c; Contact.email c;
                     orEmpty (Contact.phone c); orEmpty (Contact.company c);
                     Contact.message c ]] w') as R.
    unfold Direct.syncContact, Rows.contactValues.
    rewrite (withTimestamp_valid _ _ t Ht).
    rewrite (sync_after_values _ _ _ eq_refl).
    destruct (Direct.appendToSheet _ _ _ _ w') as [[b|e] w'']; [reflexivity|].
    discriminate R.
  - intros w' E. rewrite (syncContact_invalid_timestamp config fetch c w' E).
    reflexivity.
Qed.

Lemma withGoogleSheetsSync_syncContact_witness :
  exists background,
    fst (withGoogleSheetsSync (asyncCall (ret 42))
           (asyncCall (@Direct.syncContact strictHost
                         {| spreadsheetId := "sheet-1"; apiKey := "key-1" |}
                         (fun _ => FetchThrows (TypeError "Failed to fetch"))
                         sampleContact))
           emptyWorld)
    = Returned (42, background)
    /\ (forall w', fst (resume background w') = Returned tt).
Proof.
  destruct (@withGoogleSheetsSync_syncContact strictHost Z
              {| spreadsheetId := "sheet-1"; apiKey := "key-1" |}
              (fun _ => FetchThrows (TypeError "Failed to fetch"))
              sampleContact (asyncCall (ret 42)) emptyWorld emptyWorld emptyWorld
              {| resume := ret 42 |} 42 eq_refl eq_refl)
    as (background & R & N & _).
  exists background. split; [exact R | exact N].
Defined.

(** ** The proxy-mode client: [syncToServer] and [isConfigured] *)

(** X9.  [syncToServer] sends exactly one POST of the data to
    [/api/sync/<endpoint>] and never raises.  A failed fetch or an
    unsuccessful status gives [false] after one error line; a
    successful response whose JSON object has a truthy [success]
    gives that object's [synced] as the server sent it (whatever its
    type, [undefined] when missing) after the success line; a falsy
    [success] gives [false] after an error line that carries the
    server's [error] (a string as it is, any other truthy value as
    [String] converts it, the [TypeError] of the conversion where
    that throws), or "Sync failed" without one. *)
Theorem syncToServer_outcome
    (fetch : Fetch) (endpoint : string) (data : Value) (w : World) :
  let rq := Proxy.syncRequest endpoint data in
  let out := Proxy.syncToServer fetch endpoint data w in
  let failure (e : JsError) :=
    (Returned (VBool false),
     logged (requested w rq) LError
       ("❌ Error syncing to Google Sheets (" +:+ endpoint +:+ "):") (Some e)) in
  (exists v, fst out = Returned v)
  /\ network (snd out) = (network w ++ [rq])%list
  /\ (forall e, fetch rq = FetchThrows e -> out = failure e)
  /\ (forall r, fetch rq = FetchResponse r -> ok r = false ->
        out = failure (Error ("Sync failed: " +:+ showZ (status r))))
  /\ (forall r props, fetch rq = FetchResponse r -> ok r = true ->
        payload r = Some (VObj props) ->
        truthy (lookupProp "success" props) = true ->
        out = (Returned (lookupProp "synced" props),
               logged (requested w rq) LLog
                 ("✅ Successfully synced to Google Sheets: " +:+ endpoint) None))
  /\ (forall r props, fetch rq = FetchResponse r -> ok r = true ->
        payload r = Some (VObj props) ->
        truthy (lookupProp "success" props) = false ->
        out = failure (if truthy (lookupProp "error" props)
                       then match toStr (lookupProp "error" props) with
                            | Returned message => Error message
                            | Raised e => e
                            end
                       else Error "Sync failed"))
  /\ (forall r props message, fetch rq = FetchResponse r -> ok r = true ->
        payload r = Some (VObj props) ->
        truthy (lookupProp "success" props) = false ->
        lookupProp "error" props = VStr message -> message <> "" ->
        out = failure (Error message)).
Proof.
  intros rq out failure. subst out failure. cbv beta.
  split; [apply syncToServer_never_raises|].
  unfold Proxy.syncToServer. fold rq. run. repeat split.
  - destruct (fetch rq) as [e|r]; [reflexivity|].
    destruct (ok r); cbn [negb]; [|reflexivity].
    destruct (payload r) as [result|]; [|reflexivity].
    destruct (getProp result "success") as [success|e]; [|reflexivity].
    destruct (truthy success).
    + destruct (getProp result "synced"); reflexivity.
    + destruct (getProp result "error") as [err|e]; [|reflexivity].
      destruct (if truthy err then toStr err else Returned "Sync failed"); reflexivity.
  - intros e ->. reflexivity.
  - intros r -> Hok. rewrite Hok. reflexivity.
  - intros r props -> Hok Hp Hs. rewrite Hok, Hp. cbn [negb getProp].
    rewrite Hs. reflexivity.
  - intros r props -> Hok Hp Hs. rewrite Hok, Hp. cbn [negb getProp].
    rewrite Hs. destruct (truthy (lookupProp "error" props)); [|reflexivity].
    destruct (toStr (lookupProp "error" props)); reflexivity.
  - intros r props message -> Hok Hp Hs Herr Hnonempty.
    rewrite Hok, Hp. cbn [negb getProp]. rewrite Hs, Herr.
    cbn [truthy value_truthy toStr].
    apply truthy_string in Hnonempty. rewrite Hnonempty. reflexivity.
Qed.

Lemma syncToServer_outcome_witness :
  let fetch : Fetch := fun _ =>
    FetchResponse {| status := 200; payload := Some (VObj [("success", VBool true)]) |} in
  Proxy.syncToServer fetch "contact" (VObj [("name", VStr "A")]) emptyWorld
  = (Returned VUndefined,
     logged (requested emptyWorld (Proxy.syncRequest "contact" (VObj [("name", VStr "A")])))
       LLog ("✅ Successfully synced to Google Sheets: " +:+ "contact") None).
Proof.
  intros fetch.
  apply (proj1 (proj2 (proj2 (proj2 (proj2
           (syncToServer_outcome fetch "contact" (VObj [("name", VStr "A")]) emptyWorld)))))
           {| status := 200; payload := Some (VObj [("success", VBool true)]) |}
           [("success", VBool true)]).
  - reflexivity.
  - reflexivity.
  - reflexivity.
  - reflexivity.
Defined.

(** X10.  A call of the proxy client's [isConfigured] sends one GET
    of [/api/sync/status] and hands back a promise that never
    rejects.  That promise resolves to a truthy value only when the
    response is successful, its JSON has a truthy [success], and
    [data.configured] is that truthy value; a failed fetch resolves
    it to [false] after an error line. *)
Theorem proxy_isConfigured_promise (fetch : Fetch) (w : World) :
  exists p,
    Proxy.isConfigured fetch w = (Returned p, requested w Proxy.statusRequest)
    /\ (forall w', exists v, fst (resume p w') = Returned v)
    /\ (forall w' v, fst (resume p w') = Returned v -> truthy v = true ->
          exists r result success data,
            fetch Proxy.statusRequest = FetchResponse r /\ ok r = true
            /\ payload r = Some result
            /\ getProp result "success" = Returned success
            /\ truthy success = true
            /\ getProp result "data" = Returned data
            /\ getProp data "configured" = Returned v)
    /\ (forall w' e, fetch Proxy.statusRequest = FetchThrows e ->
          resume p w'
          = (Returned (VBool false),
             logged w' LError "Error checking Google Sheets configuration:" (Some e))).
Proof.
  eexists. split; [reflexivity|]. cbn [resume]. run. repeat split.
  - intros w'. destruct (fetch Proxy.statusRequest) as [e|r]; [eexists; reflexivity|].
    destruct (ok r); [|eexists; reflexivity].
    destruct (payload r) as [result|]; [|eexists; reflexivity].
    destruct (getProp result "success") as [success|e]; [|eexists; reflexivity].
    destruct (truthy success); [|eexists; reflexivity].
    destruct (getProp result "data") as [data|e]; [|eexists; reflexivity].
    destruct (getProp data "configured"); eexists; reflexivity.
  - intros w' v. destruct (fetch Proxy.statusRequest) as [e|r];
      [intros [= <-]; discriminate|].
    destruct (ok r) eqn:Hok; [|intros [= <-]; discriminate].
    destruct (payload r) as [result|] eqn:Hp; [|intros [= <-]; discriminate].
    destruct (getProp result "success") as [success|e] eqn:Hs;
      [|intros [= <-]; discriminate].
    destruct (truthy success) eqn:Ht; [|intros [= <-] Hv; congruence].
    destruct (getProp result "data") as [data|e] eqn:Hd;
      [|intros [= <-]; discriminate].
    destruct (getProp data "configured") as [configured|e] eqn:Hc;
      [|intros [= <-]; discriminate].
    intros [= <-] Hv. exists r, result, success, data.
    repeat split; assumption || reflexivity.
  - intros w' e ->. reflexivity.
Qed.

Example proxy_isConfigured_configured :
  let fetch : Fetch := fun _ =>
    FetchResponse {| status := 200;
                     payload := Some (VObj [("success", VBool true);
                                            ("data", VObj [("configured", VBool true)])]) |} in
  exists p w1,
    Proxy.isConfigured fetch emptyWorld = (Returned p, w1)
    /\ resume p w1 = (Returned (VBool true), w1).
Proof. do 2 eexists. split; reflexivity. Qed.

(** ** Stored file names: what they are good for *)

(** X11.  The name [storage.filename] gives an uploaded image is
    always a single proper file name, whatever the client sent as
    original name: it holds no slash and is neither [.] nor [..], so
    the file is stored directly in the uploads directory. *)
Theorem storageFilename_proper
    (cwd : list string) (rq : Upload.UploadRequest) (file : Upload.FilePart) :
  Path.properName (Upload.storageFilename rq file) = true
  /\ Path.join (Upload.uploadsDir cwd) (Upload.storageFilename rq file)
     = (Upload.uploadsDir cwd ++ [Upload.storageFilename rq file])%list
  /\ Path.strictlyInside (Upload.uploadsDir cwd)
       (Path.join (Upload.uploadsDir cwd) (Upload.storageFilename rq file)).
Proof. apply storageFilename_parts. Qed.

Example storageFilename_hostile :
  Upload.storageFilename
    {| Upload.files := []; Upload.now := 1704067200000; Upload.random := 7 |}
    {| Upload.fieldname := "image"; Upload.originalname := "../../etc/cron.d/x.png";
       Upload.mimetype := "image/png"; Upload.size := 10 |}
  = "image-1704067200000-7.png".
Proof. reflexivity. Qed.

(** ** [POST /api/upload/image]: every request *)

(** X12.  Whatever the request and the disk, [POST /api/upload/image]
    changes the disk at one path at most: the name generated for the
    first part that carries a file name, directly under the uploads
    directory, which is a directory, and where no directory was.
    Afterwards that path holds the stored file, or nothing: a file of
    that name is overwritten, and removed together with the upload
    when the request is aborted (size limit, further files).  Nothing
    else is written or removed. *)
Theorem postUploadImage_confined
    (cwd : list string) (limitAtEqual : bool) (rq : Upload.UploadRequest)
    (w : World) (p : list string) :
  disk (snd (Upload.postUploadImage cwd limitAtEqual rq w)) !! p <> disk w !! p ->
  exists file others,
    named rq = file :: others
    /\ p = (Upload.uploadsDir cwd ++ [Upload.storageFilename rq file])%list
    /\ Path.strictlyInside (Upload.uploadsDir cwd) p
    /\ disk w !! Upload.uploadsDir cwd = Some Dir
    /\ disk w !! p <> Some Dir
    /\ ((disk (snd (Upload.postUploadImage cwd limitAtEqual rq w)) !! p = Some File
         /\ others = []
         /\ (if limitAtEqual
             then Upload.size file < 5 * 1024 * 1024
             else Upload.size file <= 5 * 1024 * 1024))
        \/ (disk (snd (Upload.postUploadImage cwd limitAtEqual rq w)) !! p = None
            /\ disk w !! p = Some File)).
Proof.
  rewrite postUploadImage_cases. cbv zeta.
  destruct (named rq) as [|file others]; [intros H; now contradiction H|].
  destruct (storageFilename_parts cwd rq file) as (_ & J & S). rewrite J in S.
  set (stored := (Upload.uploadsDir cwd ++ [Upload.storageFilename rq file])%list) in *.
  destruct (negb _); [intros H; now contradiction H|].
  destruct (startsWith _ _); [|destruct others; intros H; now contradiction H].
  destruct (disk w !! Upload.uploadsDir cwd) as [[|]|] eqn:U;
    try (intros H; now contradiction H).
  assert (Hremoved :
    disk w !! stored <> Some Dir ->
    disk (onDisk (delete stored) w) !! p <> disk w !! p ->
    p = stored /\ disk w !! p <> Some Dir
    /\ disk (onDisk (delete stored) w) !! p = None /\ disk w !! p = Some File).
  { intros Hnd Hchanged. cbn in Hchanged |- *.
    destruct (decide (stored = p)) as [<-|Hne];
      [|now rewrite lookup_delete_ne in Hchanged].
    rewrite lookup_delete_eq in Hchanged |- *.
    destruct (disk w !! stored) as [[|]|]; repeat split; congruence. }
  assert (Hstored : forall line,
    disk w !! stored <> Some Dir ->
    disk (logged (onDisk (insert stored File) w) LLog line None) !! p <> disk w !! p ->
    p = stored /\ disk w !! p <> Some Dir
    /\ disk (logged (onDisk (insert stored File) w) LLog line None) !! p = Some File).
  { intros line Hnd Hchanged. cbn in Hchanged |- *.
    destruct (decide (stored = p)) as [<-|Hne];
      [|now rewrite lookup_insert_ne in Hchanged].
    rewrite lookup_insert_eq. repeat split; congruence. }
  destruct (disk w !! stored) as [[|]|] eqn:E; try (intros H; now contradiction H);
    (destruct (Upload.exceeds limitAtEqual (Upload.size file)) eqn:X;
     [|destruct others as [|second others]]); intros Hchanged;
    exists file; eexists; (split; [reflexivity|]);
    try (destruct (Hremoved ltac:(discriminate) Hchanged) as (-> & Hd & Hn & Hf);
         repeat split; try assumption; now right);
    destruct (Hstored _ ltac:(discriminate) Hchanged) as (-> & Hd & Hs);
    apply exceeds_false in X;
    repeat split; try assumption; left; repeat split; assumption.
Qed.

Lemma postUploadImage_confined_witness :
  let rq := {| Upload.files := [catPng];
               Upload.now := 1704067200000; Upload.random := 42 |} in
  let p := ["srv"; "app"; "uploads"; "image-1704067200000-42.png"] in
  exists file others,
    named rq = file :: others
    /\ p = (Upload.uploadsDir ["srv"; "app"] ++ [Upload.storageFilename rq file])%list
    /\ Path.strictlyInside (Upload.uploadsDir ["srv"; "app"]) p
    /\ disk sampleServer !! Upload.uploadsDir ["srv"; "app"] = Some Dir
    /\ disk sampleServer !! p <> Some Dir
    /\ ((disk (snd (Upload.postUploadImage ["srv"; "app"] true rq sampleServer)) !! p
         = Some File
         /\ others = []
         /\ Upload.size file < 5 * 1024 * 1024)
        \/ (disk (snd (Upload.postUploadImage ["srv"; "app"] true rq sampleServer)) !! p
            = None
            /\ disk sampleServer !! p = Some File)).
Proof.
  intros rq p.
  apply (postUploadImage_confined ["srv"; "app"] true rq sampleServer p).
  vm_compute. discriminate.
Defined.







(** ** [deleteImage]: malformed bodies, the directory part, the trace *)

(** X15.  A body that is [undefined] or [null], or whose [url] is a
    truthy value other than a string (a number, [true], an array, an
    object), is answered with the 500 "Failed to delete image" after
    one error line; the disk is not even looked at. *)
Theorem deleteImage_malformed (cwd : list string) (reqBody : Value) (w : World) :
  let failure (e : JsError) :=
    (Returned Upload.failedDelete, logged w LError "Error deleting image:" (Some e)) in
  (forall e, getProp reqBody "url" = Raised e ->
     Upload.deleteImage cwd reqBody w = failure e)
  /\ (forall url, getProp reqBody "url" = Returned url ->
        (forall s, url <> VStr s) -> truthy url = true ->
        Upload.deleteImage cwd reqBody w
        = failure (TypeError "url.startsWith is not a function")).
Proof.
  intros failure. subst failure. cbv beta. unfold Upload.deleteImage. split.
  - intros e ->. reflexivity.
  - intros url -> Hnot Htruthy. run.
    destruct url as [| |b|n|s|l|l]; try discriminate Htruthy.
    + cbn [truthy value_truthy] in *. subst b. reflexivity.
    + cbn [truthy value_truthy] in *. rewrite Htruthy. reflexivity.
    + now contradiction (Hnot s).
    + reflexivity.
    + reflexivity.
Qed.

Lemma deleteImage_malformed_witness :
  Upload.deleteImage ["srv"; "app"] (VObj [("url", VNum "5")]) sampleServer
  = (Returned Upload.failedDelete,
     logged sampleServer LError "Error deleting image:"
       (Some (TypeError "url.startsWith is not a function"))).
Proof.
  apply (proj2 (deleteImage_malformed ["srv"; "app"] (VObj [("url", VNum "5")]) sampleServer)
           (VNum "5")).
  - reflexivity.
  - discriminate.
  - reflexivity.
Defined.

(** X16.  [deleteImage] looks at the last component of the URL only:
    two URLs under [/api/uploads/] with the same base name are one and
    the same request, so the URL of a file in a subdirectory acts on
    the file of that name directly in the uploads directory. *)
Theorem deleteImage_basename_only (cwd : list string) (url1 url2 : string) (w : World) :
  startsWith url1 "/api/uploads/" = true ->
  startsWith url2 "/api/uploads/" = true ->
  Path.basename url1 = Path.basename url2 ->
  Upload.deleteImage cwd (VObj [("url", VStr url1)]) w
  = Upload.deleteImage cwd (VObj [("url", VStr url2)]) w.
Proof.
  intros H1 H2 Hb. unfold Upload.deleteImage.
  change (getProp (VObj [("url", VStr url1)]) "url") with (Returned (VStr url1)).
  change (getProp (VObj [("url", VStr url2)]) "url") with (Returned (VStr url2)).
  run.
  rewrite (startsWith_truthy url1 "/api/uploads/") by (discriminate || assumption).
  rewrite (startsWith_truthy url2 "/api/uploads/") by (discriminate || assumption).
  rewrite H1, H2, Hb. reflexivity.
Qed.

Lemma deleteImage_basename_only_witness :
  Upload.deleteImage ["srv"; "app"]
    (VObj [("url", VStr "/api/uploads/resumes/image-1-2.png")]) sampleServer
  = Upload.deleteImage ["srv"; "app"]
      (VObj [("url", VStr "/api/uploads/image-1-2.png")]) sampleServer.
Proof.
  apply (deleteImage_basename_only ["srv"; "app"]
           "/api/uploads/resumes/image-1-2.png" "/api/uploads/image-1-2.png"
           sampleServer).
  - reflexivity.
  - reflexivity.
  - reflexivity.
Defined.

Lemma console_grew_by (l : list LogEntry) (x y : LogEntry) :
  (l ++ [x] = l ++ [y])%list -> x = y.
Proof. intros E. apply app_inv_head in E. now injection E. Qed.

Lemma console_not_grown (l : list LogEntry) (x : LogEntry) : l <> (l ++ [x])%list.
Proof.
  intros E. apply (f_equal (@List.length _)) in E.
  rewrite length_app in E. cbn in E. lia.
Qed.

(** X17.  The trace of [deleteImage].  It sends nothing; it calls
    [fs] not at all, or [existsSync] once on a path that is absent, or
    [existsSync] and then [unlinkSync] on one and the same path that
    is present; and the line "Deleted image: ..." is printed exactly
    when the disk has changed. *)
Theorem deleteImage_trace (cwd : list string) (reqBody : Value) (w : World) :
  let w' := snd (Upload.deleteImage cwd reqBody w) in
  network w' = network w
  /\ (exists calls,
        fsCalls w' = (fsCalls w ++ calls)%list
        /\ (calls = []
            \/ exists p,
                 (calls = [ExistsSync p] /\ disk w !! p = None)
                 \/ (calls = [ExistsSync p; UnlinkSync p] /\ is_Some (disk w !! p))))
  /\ (disk w' <> disk w
      <-> exists name,
            console w'
            = (console w ++ [{| level := LLog; text := "Deleted image: " +:+ name;
                                attached := None |}])%list).
Proof.
  intros w'. subst w'. unfold Upload.deleteImage.
  assert (Hquiet : forall v : World, v = w ->
            network v = network w
            /\ (exists calls, fsCalls v = (fsCalls w ++ calls)%list
                  /\ (calls = []
                      \/ exists p,
                           (calls = [ExistsSync p] /\ disk w !! p = None)
                           \/ (calls = [ExistsSync p; UnlinkSync p]
                               /\ is_Some (disk w !! p))))
            /\ (disk v <> disk w
                <-> exists name,
                      console v
                      = (console w ++ [{| level := LLog;
                                          text := "Deleted image: " +:+ name;
                                          attached := None |}])%list)).
  { intros v ->. split; [reflexivity|]. split.
    - exists []. rewrite app_nil_r. split; [reflexivity | now left].
    - split; [intros E; now contradiction E|].
      intros [name E]. now apply console_not_grown in E. }
  assert (Hfailed : forall e,
            network (logged w LError "Error deleting image:" (Some e)) = network w
            /\ (exists calls,
                  fsCalls (logged w LError "Error deleting image:" (Some e))
                  = (fsCalls w ++ calls)%list
                  /\ (calls = []
                      \/ exists p,
                           (calls = [ExistsSync p] /\ disk w !! p = None)
                           \/ (calls = [ExistsSync p; UnlinkSync p]
                               /\ is_Some (disk w !! p))))
            /\ (disk (logged w LError "Error deleting image:" (Some e)) <> disk w
                <-> exists name,
                      console (logged w LError "Error deleting image:" (Some e))
                      = (console w ++ [{| level := LLog;
                                          text := "Deleted image: " +:+ name;
                                          attached := None |}])%list)).
  { intros e. split; [reflexivity|]. split.
    - exists []. cbn. rewrite app_nil_r. split; [reflexivity | now left].
    - cbn. split; [intros E; now contradiction E|].
      intros [name E]. apply console_grew_by in E. discriminate E. }
  destruct (getProp reqBody "url") as [url|e]; run; [|apply Hfailed].
  destruct url as [| |b|n|s|l|l]; cbn [truthy value_truthy];
    try (apply Hquiet; destruct w; reflexivity);
    try (apply Hfailed).
  - destruct b; [apply Hfailed | apply Hquiet; destruct w; reflexivity].
  - destruct (negb (_ || _)); [apply Hfailed | apply Hquiet; destruct w; reflexivity].
  - destruct (truthy s && startsWith s "/api/uploads/");
      [|apply Hquiet; destruct w; reflexivity].
    set (p := Path.join (Upload.uploadsDir cwd) (Path.basename s)).
    reduce. clear Hquiet Hfailed.
    destruct (disk w !! p) as [[|]|] eqn:E.
    + rewrite bool_decide_eq_true_2 by eauto. reduce. rewrite E. reduce.
      split; [reflexivity|]. split.
      * exists [ExistsSync p; UnlinkSync p]. rewrite <- app_assoc.
        split; [reflexivity|]. right. exists p. right. split; [reflexivity|].
        rewrite E. eauto.
      * split; [intros _; eexists; reflexivity|].
        intros _ Heq. apply (f_equal (fun d => d !! p)) in Heq.
        rewrite lookup_delete_eq, E in Heq. discriminate.
    + rewrite bool_decide_eq_true_2 by eauto. reduce. rewrite E. reduce.
      split; [reflexivity|]. split.
      * exists [ExistsSync p; UnlinkSync p]. rewrite <- app_assoc.
        split; [reflexivity|]. right. exists p. right. split; [reflexivity|].
        rewrite E. eauto.
      * split; [intros Hd; now contradiction Hd|].
        intros [name Hc]. apply console_grew_by in Hc. discriminate Hc.
    + rewrite bool_decide_eq_false_2 by (intros [? ?]; discriminate). reduce.
      split; [reflexivity|]. split.
      * exists [ExistsSync p]. split; [reflexivity|]. right. exists p. now left.
      * split; [intros Hd; now contradiction Hd|].
        intros [name Hc]. now apply console_not_grown in Hc.
Qed.

(** ** Start-up: the uploads directory *)

(** [mkdirEach] only adds directories, each a prefix of the path
    asked for; when it returns normally every such prefix is there. *)
Lemma mkdirEach_spec (rest parent : list string) (d : gmap (list string) Node) :
  (forall p, snd (mkdirEach parent rest d) !! p <> d !! p ->
     d !! p = None /\ snd (mkdirEach parent rest d) !! p = Some Dir
     /\ exists k, (0 < k <= List.length rest)%nat /\ p = (parent ++ take k rest)%list)
  /\ (fst (mkdirEach parent rest d) = Returned tt ->
      forall k, (0 < k <= List.length rest)%nat ->
        snd (mkdirEach parent rest d) !! (parent ++ take k rest)%list = Some Dir).
Proof.
  revert parent d. induction rest as [|name rest IH]; intros parent d.
  - cbn. split; [intros p Hp; now contradiction Hp | intros _ k Hk; lia].
  - cbn [mkdirEach]. set (here := (parent ++ [name])%list).
    assert (Hhere : forall k, (parent ++ take (S k) (name :: rest) = here ++ take k rest)%list)
      by (intros k; subst here; cbn; now rewrite <- app_assoc).
    destruct (d !! here) as [[|]|] eqn:E.
    + cbn. split; [intros p Hp; now contradiction Hp | discriminate].
    + destruct (IH here d) as [Hadd Hall]. split.
      * intros p Hp. destruct (Hadd p Hp) as (Hn & Hd & k & Hk & ->).
        split; [exact Hn|]. split; [exact Hd|].
        exists (S k). split; [cbn; lia | now rewrite Hhere].
      * intros Hok [|[|k]] Hk; [lia| |].
        -- rewrite Hhere. cbn [take]. rewrite app_nil_r.
           destruct (decide (snd (mkdirEach here rest d) !! here = d !! here))
             as [Heq|Hne]; [now rewrite Heq|].
           destruct (Hadd here Hne) as (Hn & _). congruence.
        -- rewrite Hhere. apply (Hall Hok). cbn in Hk. lia.
    + destruct (IH here (<[here := Dir]> d)) as [Hadd Hall].
      assert (Hkept : snd (mkdirEach here rest (<[here := Dir]> d)) !! here = Some Dir).
      { destruct (decide (snd (mkdirEach here rest (<[here := Dir]> d)) !! here
                          = <[here := Dir]> d !! here)) as [Heq|Hne].
        - rewrite Heq. apply lookup_insert_eq.
        - destruct (Hadd here Hne) as (Hn & _).
          rewrite lookup_insert_eq in Hn. discriminate. }
      split.
      * intros p Hp. destruct (decide (here = p)) as [<-|Hne].
        -- split; [exact E|]. split; [exact Hkept|].
           exists 1%nat. split; [cbn; lia|]. rewrite Hhere. cbn. now rewrite app_nil_r.
        -- rewrite <- (lookup_insert_ne d here p Dir Hne) in Hp.
           destruct (Hadd p Hp) as (Hn & Hd & k & Hk & ->).
           rewrite lookup_insert_ne in Hn by exact Hne.
           split; [exact Hn|]. split; [exact Hd|].
           exists (S k). split; [cbn; lia | now rewrite Hhere].
      * intros Hok [|[|k]] Hk; [lia| |].
        -- rewrite Hhere. cbn [take]. rewrite app_nil_r. exact Hkept.
        -- rewrite Hhere. apply (Hall Hok). cbn in Hk. lia.
Qed.

(** X18.  The start-up code of the upload routes.  When the uploads
    path already exists, nothing is created.  In any case the only
    change it can make to the disk is to add directories on the way
    to the uploads directory: no entry that was there is altered.
    And when it returns normally from a disk without the uploads
    path, the uploads directory and every directory above it, up to
    the first component, exist as directories. *)
Theorem ensureUploadsDir_creates (cwd : list string) (w : World) :
  let out := Startup.ensureUploadsDir cwd w in
  let uploads := Upload.uploadsDir cwd in
  (is_Some (disk w !! uploads) -> fst out = Returned tt /\ disk (snd out) = disk w)
  /\ (forall p, disk (snd out) !! p <> disk w !! p ->
        disk w !! p = None /\ disk (snd out) !! p = Some Dir
        /\ exists k, (0 < k <= List.length uploads)%nat /\ p = take k uploads)
  /\ (disk w !! uploads = None -> fst out = Returned tt ->
      forall k, (0 < k <= List.length uploads)%nat ->
        disk (snd out) !! take k uploads = Some Dir).
Proof.
  intros out uploads. subst out. unfold Startup.ensureUploadsDir. fold uploads.
  run. unfold mkdirSync.
  pose proof (mkdirEach_spec uploads [] (disk w)) as [Hadd Hall].
  destruct (disk w !! uploads) as [node|] eqn:E.
  - rewrite bool_decide_eq_true_2 by eauto. cbn [negb]. reduce.
    split; [intros _; split; reflexivity|].
    split; [intros p Hp; now contradiction Hp | discriminate].
  - rewrite bool_decide_eq_false_2 by (intros [? ?]; discriminate). cbn [negb].
    reduce. destruct (mkdirEach [] uploads (disk w)) as [c d'] eqn:Em.
    reduce. cbn [fst snd] in *.
    split; [intros [? ?]; discriminate|]. split.
    + intros p Hp. destruct (Hadd p Hp) as (Hn & Hd & k & Hk & ->). eauto.
    + intros _ Hok k Hk. exact (Hall Hok k Hk).
Qed.

Lemma ensureUploadsDir_creates_witness :
  disk (snd (Startup.ensureUploadsDir ["srv"; "app"] emptyWorld))
    !! take 3 (Upload.uploadsDir ["srv"; "app"]) = Some Dir.
Proof.
  apply (proj2 (proj2 (ensureUploadsDir_creates ["srv"; "app"] emptyWorld))).
  - reflexivity.
  - reflexivity.
  - cbn. lia.
Defined.





(** ** The resume storage *)

Lemma resumesDir_eq (cwd : list string) :
  Resume.resumesDir cwd = (Upload.uploadsDir cwd ++ ["resumes"])%list.
Proof.
  rewrite uploadsDir_eq. unfold Resume.resumesDir, joinAll, Path.normalize.
  cbn [map concat Path.splitSlash Path.isSlash app].
  rewrite fold_left_app. cbn. now rewrite <- app_assoc.
Qed.



(** X21.  [destination] of the resume storage hands back
    [uploads/resumes]; when it returns normally that path exists; and
    whatever happens, the only change to the disk is that directories
    on the way to it are added, no entry that was there being
    altered. *)
Theorem resume_destination (cwd : list string) (w : World) :
  let out := Resume.destination cwd w in
  let resumes := Resume.resumesDir cwd in
  (forall d, fst out = Returned d ->
     d = resumes /\ is_Some (disk (snd out) !! resumes))
  /\ (is_Some (disk w !! resumes) ->
      fst out = Returned resumes /\ disk (snd out) = disk w)
  /\ (forall p, disk (snd out) !! p <> disk w !! p ->
        disk w !! p = None /\ disk (snd out) !! p = Some Dir
        /\ exists k, (0 < k <= List.length resumes)%nat /\ p = take k resumes).
Proof.
  intros out resumes. subst out. unfold Resume.destination. fold resumes.
  run. unfold mkdirSync.
  pose proof (mkdirEach_spec resumes [] (disk w)) as [Hadd Hall].
  assert (Hlen : (0 < List.length resumes)%nat)
    by (subst resumes; rewrite resumesDir_eq, length_app; cbn; lia).
  destruct (disk w !! resumes) as [node|] eqn:E.
  - rewrite bool_decide_eq_true_2 by eauto. cbn [negb]. reduce.
    split; [intros d [= <-]; split; [reflexivity | rewrite E; eauto]|].
    split; [intros _; split; reflexivity|].
    intros p Hp; now contradiction Hp.
  - rewrite bool_decide_eq_false_2 by (intros [? ?]; discriminate). cbn [negb].
    reduce. destruct (mkdirEach [] resumes (disk w)) as [[[]|e] d'] eqn:Em;
      reduce; cbn [fst snd] in *.
    + split.
      * intros d [= <-]. split; [reflexivity|].
        pose proof (Hall eq_refl (List.length resumes) ltac:(lia)) as Hd.
        cbn [app] in Hd. rewrite firstn_all in Hd.
        unfold onDisk. reduce. rewrite Hd. eauto.
      * split; [intros [? ?]; discriminate|].
        intros p Hp. destruct (Hadd p Hp) as (Hn & Hd & k & Hk & ->). eauto.
    + split; [discriminate|]. split; [intros [? ?]; discriminate|].
      intros p Hp. destruct (Hadd p Hp) as (Hn & Hd & k & Hk & ->). eauto.
Qed.

(** ** Timestamps already in ISO form *)

Lemma all_days_of_era : checkFrom (Z.to_nat 146097) 0 = true.
Proof. vm_compute. reflexivity. Qed.

Lemma checkFrom_sound (fuel : nat) (z0 z : Z) :
  checkFrom fuel z0 = true -> z0 <= z < z0 + Z.of_nat fuel -> dayOk z = true.
Proof.
  revert z0. induction fuel as [|f IH]; intros z0 H Hz; [lia|].
  cbn [checkFrom] in H. destruct (dayOk z0) eqn:E; [|discriminate].
  destruct (Z.eq_dec z z0) as [->|Hne]; [exact E|].
  apply (IH (z0 + 1) H). lia.
Qed.

Lemma dayOk_all (doe : Z) : 0 <= doe < 146097 -> dayOk doe = true.
Proof.
  intros H. apply (checkFrom_sound (Z.to_nat 146097) 0 doe all_days_of_era).
  rewrite Z2Nat.id; lia.
Qed.

Lemma isLeap_era (a era : Z) : JsDate.isLeap (a + era * 400) = JsDate.isLeap a.
Proof.
  unfold JsDate.isLeap.
  replace ((a + era * 400) mod 4) with (a mod 4)
    by (replace (a + era * 400) with (a + (era * 100) * 4) by lia;
        now rewrite Z.mod_add).
  replace ((a + era * 400) mod 100) with (a mod 100)
    by (replace (a + era * 400) with (a + (era * 4) * 100) by lia;
        now rewrite Z.mod_add).
  now rewrite Z.mod_add.
Qed.

(** The date of a day number is a legal date, and leads back to the
    day number; the days of the years 0 to 9999 have such a year. *)
Lemma civil_round_trip (z : Z) :
  let '(y, m, d) := JsDate.civilFromDays z in
  JsDate.daysFromCivil y m d = z
  /\ 1 <= m <= 12 /\ 1 <= d <= JsDate.daysInMonth y m
  /\ (-719528 <= z <= 2932896 -> 0 <= y <= 9999).
Proof.
  set (era := (z + 719468) / 146097).
  set (doe := z + 719468 - era * 146097).
  assert (Hdoe : 0 <= doe < 146097).
  { subst doe era. pose proof (Z.div_mod (z + 719468) 146097 ltac:(lia)).
    pose proof (Z.mod_pos_bound (z + 719468) 146097 ltac:(lia)). lia. }
  pose proof (dayOk_all doe Hdoe) as Hok.
  assert (Hciv : JsDate.civilFromDays z
                 = let '(yoe, m, d) := eraCivil doe in
                   (if m <=? 2 then yoe + era * 400 + 1 else yoe + era * 400, m, d))
    by reflexivity.
  rewrite Hciv. unfold dayOk in Hok.
  destruct (eraCivil doe) as [[yoe m] d].
  repeat (apply andb_true_iff in Hok as [Hok ?]).
  repeat match goal with
         | H : (_ <=? _) = true |- _ => apply Z.leb_le in H
         | H : (_ =? _) = true |- _ => apply Z.eqb_eq in H
         end.
  assert (Hera : (yoe + era * 400) / 400 = era)
    by (rewrite Z.div_add by lia; rewrite Z.div_small by lia; lia).
  assert (Hrange : -719528 <= z <= 2932896 ->
                   0 <= (if m <=? 2 then yoe + 1 else yoe) + era * 400 <= 9999).
  { intros Hz. subst doe era.
    pose proof (Z.div_mod (z + 719468) 146097 ltac:(lia)).
    pose proof (Z.mod_pos_bound (z + 719468) 146097 ltac:(lia)).
    destruct (_ <=? 146036) eqn:Hd.
    - apply Z.leb_le in Hd. destruct (m <=? 2); lia.
    - apply Z.leb_gt in Hd. destruct (m <=? 2); lia. }
  unfold JsDate.daysFromCivil.
  destruct (m <=? 2) eqn:Hm.
  - replace (yoe + era * 400 + 1 - 1) with (yoe + era * 400) by lia.
    rewrite Hera.
    replace (yoe + era * 400 - era * 400) with yoe by lia.
    replace (yoe + era * 400 + 1) with (yoe + 1 + era * 400) by lia.
    unfold JsDate.daysInMonth in *. rewrite isLeap_era.
    split; [subst doe; lia|]. split; [lia|]. split; [lia | exact Hrange].
  - rewrite Hera.
    replace (yoe + era * 400 - era * 400) with yoe by lia.
    unfold JsDate.daysInMonth in *. rewrite isLeap_era.
    split; [subst doe; lia|]. split; [lia|]. split; [lia | exact Hrange].
Qed.

Lemma digitVal_digitChar (d : Z) :
  0 <= d <= 9 -> JsDate.digitVal (digitChar d) = Some d.
Proof.
  intros Hd.
  assert (d = 0 \/ d = 1 \/ d = 2 \/ d = 3 \/ d = 4 \/ d = 5 \/ d = 6
          \/ d = 7 \/ d = 8 \/ d = 9) as Hcases by lia.
  repeat (destruct Hcases as [-> | Hcases]; [reflexivity|]). now subst.
Qed.

(** Reading a text of the form [YYYY-MM-DDTHH:mm:ss.sssZ], digit by
    digit. *)
Lemma isoInstant_digits (y3 y2 y1 y0 o1 o0 d1 d0 h1 h0 i1 i0 s1 s0 k2 k1 k0 : Z) :
  Forall (fun x => 0 <= x <= 9)
    [y3; y2; y1; y0; o1; o0; d1; d0; h1; h0; i1; i0; s1; s0; k2; k1; k0] ->
  let y := (((0 * 10 + y3) * 10 + y2) * 10 + y1) * 10 + y0 in
  let mo := (0 * 10 + o1) * 10 + o0 in
  let d := (0 * 10 + d1) * 10 + d0 in
  let h := (0 * 10 + h1) * 10 + h0 in
  let mi := (0 * 10 + i1) * 10 + i0 in
  let sec := (0 * 10 + s1) * 10 + s0 in
  let ms := ((0 * 10 + k2) * 10 + k1) * 10 + k0 in
  1 <= mo <= 12 -> 1 <= d <= JsDate.daysInMonth y mo ->
  h <= 23 -> mi <= 59 -> sec <= 59 ->
  JsDate.isoInstant
    (String (digitChar y3) (String (digitChar y2) (String (digitChar y1)
    (String (digitChar y0) (String "-"
    (String (digitChar o1) (String (digitChar o0) (String "-"
    (String (digitChar d1) (String (digitChar d0) (String "T"
    (String (digitChar h1) (String (digitChar h0) (String ":"
    (String (digitChar i1) (String (digitChar i0) (String ":"
    (String (digitChar s1) (String (digitChar s0) (String "."
    (String (digitChar k2) (String (digitChar k1) (String (digitChar k0)
    (String "Z" ""))))))))))))))))))))))))
  = Some (JsDate.daysFromCivil y mo d * JsDate.msPerDay
          + h * 3600000 + mi * 60000 + sec * 1000 + ms).
Proof.
  intros Hdigits y mo d h mi sec ms Hmo Hd Hh Hmi Hsec.
  repeat match goal with
         | H : Forall _ (_ :: _) |- _ =>
             let Hx := fresh "Hx" in
             apply Forall_cons_1 in H as [Hx H]
         end.
  cbv beta iota zeta fix
    delta [JsDate.isoInstant JsDate.charAt JsDate.field JsDate.number
           String.length String.get String.substring String.eqb
           Ascii.eqb Bool.eqb Nat.eqb andb orb].
  rewrite !digitVal_digitChar by assumption.
  cbv beta iota. fold y mo d h mi sec ms.
  destruct Hmo as [Hmo1 Hmo2]. destruct Hd as [Hd1 Hd2].
  apply Z.leb_le in Hmo1, Hmo2, Hd1, Hd2, Hh, Hmi, Hsec.
  rewrite Hmo1, Hmo2, Hd1, Hd2, Hh, Hmi, Hsec. reflexivity.
Qed.

Lemma digits2 (n : Z) :
  0 <= n <= 99 -> (0 * 10 + n / 10 mod 10) * 10 + n mod 10 = n.
Proof. intros H. Z.div_mod_to_equations. lia. Qed.

Lemma digits3 (n : Z) :
  0 <= n <= 999 ->
  ((0 * 10 + n / 10 / 10 mod 10) * 10 + n / 10 mod 10) * 10 + n mod 10 = n.
Proof. intros H. Z.div_mod_to_equations. lia. Qed.

Lemma digits4 (n : Z) :
  0 <= n <= 9999 ->
  (((0 * 10 + n / 10 / 10 / 10 mod 10) * 10 + n / 10 / 10 mod 10) * 10
   + n / 10 mod 10) * 10 + n mod 10 = n.
Proof. intros H. Z.div_mod_to_equations. lia. Qed.

(** Reading back the text of a legal date and time. *)
Lemma isoInstant_text (y mo d h mi sec ms : Z) :
  0 <= y <= 9999 -> 1 <= mo <= 12 -> 1 <= d <= JsDate.daysInMonth y mo ->
  0 <= h <= 23 -> 0 <= mi <= 59 -> 0 <= sec <= 59 -> 0 <= ms <= 999 ->
  JsDate.isoInstant
    (padDigits 4 y +:+ "-" +:+ padDigits 2 mo +:+ "-" +:+ padDigits 2 d
     +:+ "T" +:+ padDigits 2 h +:+ ":" +:+ padDigits 2 mi
     +:+ ":" +:+ padDigits 2 sec +:+ "." +:+ padDigits 3 ms +:+ "Z")
  = Some (JsDate.daysFromCivil y mo d * JsDate.msPerDay
          + h * 3600000 + mi * 60000 + sec * 1000 + ms).
Proof.
  intros Hy Hmo Hd Hh Hmi Hsec Hms.
  assert (Hd31 : d <= 31).
  { unfold JsDate.daysInMonth in Hd.
    destruct (mo =? 2); [destruct (JsDate.isLeap y); lia|].
    destruct (_ || _); lia. }
  pose proof (isoInstant_digits
                (y / 10 / 10 / 10 mod 10) (y / 10 / 10 mod 10) (y / 10 mod 10) (y mod 10)
                (mo / 10 mod 10) (mo mod 10) (d / 10 mod 10) (d mod 10)
                (h / 10 mod 10) (h mod 10) (mi / 10 mod 10) (mi mod 10)
                (sec / 10 mod 10) (sec mod 10)
                (ms / 10 / 10 mod 10) (ms / 10 mod 10) (ms mod 10)) as R.
  cbv zeta in R.
  rewrite (digits4 y), (digits2 mo), (digits2 d), (digits2 h), (digits2 mi),
    (digits2 sec), (digits3 ms) in R by lia.
  apply R; [|assumption|assumption|lia|lia|lia].
  repeat (apply List.Forall_cons;
          [match goal with
           | |- _ <= ?a mod 10 <= _ => pose proof (Z.mod_pos_bound a 10); lia
           end|]).
  apply List.Forall_nil.
Qed.

Lemma isoInstant_isoString (t : Z) :
  firstInstant <= t <= lastInstant ->
  JsDate.isoInstant (JsDate.isoString t) = Some t.
Proof.
  unfold firstInstant, lastInstant. intros Ht. unfold JsDate.isoString.
  pose proof (civil_round_trip (t / JsDate.msPerDay)) as C.
  destruct (JsDate.civilFromDays (t / JsDate.msPerDay)) as [[y m] d].
  destruct C as (Hback & Hm & Hd & Hy).
  assert (Hdays : -719528 <= t / JsDate.msPerDay <= 2932896)
    by (unfold JsDate.msPerDay; Z.div_mod_to_equations; lia).
  specialize (Hy Hdays).
  pose proof (Z.mod_pos_bound t JsDate.msPerDay eq_refl) as Hr.
  pose proof (Z.div_mod t JsDate.msPerDay ltac:(discriminate)) as Hsplit.
  set (r := t mod JsDate.msPerDay) in *.
  unfold JsDate.msPerDay in Hr.
  unfold JsDate.showYear.
  rewrite (proj2 (Z.leb_le 0 y)), (proj2 (Z.leb_le y 9999)) by lia. cbn [andb].
  rewrite isoInstant_text; try assumption; try lia;
    try (Z.div_mod_to_equations; lia).
  f_equal. rewrite Hback.
  enough (r / 3600000 * 3600000 + r / 60000 mod 60 * 60000
          + r / 1000 mod 60 * 1000 + r mod 1000 = r)
    by (unfold JsDate.msPerDay in *; lia).
  clear -Hr. Z.div_mod_to_equations. lia.
Qed.

(** X22.  Timestamps already in ISO form.  The text that
    [toISOString] gives for an instant of the years 0 to 9999 is read
    back by [new Date] as that very instant on every host; so the
    normalisation done by the sync methods is idempotent: the first
    cell of a row, used as timestamp again, gives the same first
    cell. *)
Theorem iso_timestamp_stable `{Host} (s : string) (t : Z) :
  JsDate.newDate s = Some t ->
  firstInstant <= t <= lastInstant ->
  Rows.isoOf s = Returned (JsDate.isoString t)
  /\ JsDate.newDate (JsDate.isoString t) = Some t
  /\ Rows.isoOf (JsDate.isoString t) = Returned (JsDate.isoString t).
Proof.
  intros Hs Ht.
  assert (Hn : JsDate.newDate (JsDate.isoString t) = Some t).
  { apply newDate_iso; [now apply isoInstant_isoString|].
    unfold firstInstant, lastInstant in Ht. lia. }
  unfold Rows.isoOf. rewrite Hs, Hn. repeat split.
Qed.

Lemma iso_timestamp_stable_witness :
  @Rows.isoOf strictHost "2024-02-29T23:59:58Z"
  = Returned (JsDate.isoString 1709251198000)
  /\ @JsDate.newDate strictHost (JsDate.isoString 1709251198000) = Some 1709251198000
  /\ @Rows.isoOf strictHost (JsDate.isoString 1709251198000)
     = Returned (JsDate.isoString 1709251198000).
Proof.
  apply (@iso_timestamp_stable strictHost "2024-02-29T23:59:58Z" 1709251198000).
  - reflexivity.
  - unfold firstInstant, lastInstant. lia.
Defined.
